(** * ms2rescore/gui.py: the settings parser [parse_settings]

    A shallow embedding of [parse_settings] (gui.py, lines 220-261) and of
    the Python operations it relies on: [str.split], truthiness, the [dict]
    constructor on a list of tuples, [dict.pop] on a shared dictionary
    object, and [try ... except Exception].

    [ast.literal_eval] belongs to Python's standard library; the
    development is parametric in it (Section [Parser]). *)

From Stdlib Require Import SpecFloat Ascii.
From stdpp Require Import gmap strings list fin_maps.

Open Scope string_scope.
Set Warnings "-register-all".

(** ** Python values *)

(** The values a form field or a Python literal can hold.  A [float] is an
    IEEE-754 binary64 number, kept in its specification form; no arithmetic
    is ever performed on it by the parser. *)
Inductive pyval : Type :=
  | PyNone
  | PyEllipsis
  | PyBool (b : bool)
  | PyInt (z : Z)
  | PyFloat (f : spec_float)
  | PyComplex (re im : spec_float)
  | PyStr (s : string)
  | PyBytes (b : list Ascii.ascii)
  | PyList (items : list pyval)
  | PyTuple (items : list pyval)
  | PySet (items : list pyval)
  | PyDict (entries : list (pyval * pyval)).

(** The exceptions that can occur while [parse_settings] runs.  All of them
    derive from Python's [Exception]. *)
Inductive exn : Type :=
  | KeyError (key : string)
  | AttributeError
  | TypeError
  | ValueError
  | SyntaxError
  | MemoryError
  | RecursionError
  | MS2RescoreGUIError (msg : string).

Inductive outcome (A : Type) : Type :=
  | Ok (a : A)
  | Raise (e : exn).
Arguments Ok {A} a.
Arguments Raise {A} e.

Global Instance outcome_ret : MRet outcome := @Ok.
Global Instance outcome_bind : MBind outcome := λ A B f r,
  match r with
  | Ok a => f a
  | Raise e => Raise e
  end.

(** ** Truthiness ([if parsed_conf_item:]) *)

Definition float_is_zero (f : spec_float) : bool :=
  match f with
  | S754_zero _ => true
  | _ => false
  end.

Definition nonempty {A} (l : list A) : bool :=
  match l with
  | [] => false
  | _ :: _ => true
  end.

Definition truthy (v : pyval) : bool :=
  match v with
  | PyNone => false
  | PyEllipsis => true
  | PyBool b => b
  | PyInt z => negb (Z.eqb z 0)
  | PyFloat f => negb (float_is_zero f)
  | PyComplex re im => negb (float_is_zero re && float_is_zero im)
  | PyStr s => negb (String.eqb s "")
  | PyBytes b => nonempty b
  | PyList l | PyTuple l | PySet l => nonempty l
  | PyDict d => nonempty d
  end.

(** ** [str.split(sep)] for a one-character separator *)

(** [s.split(sep)] cuts at every occurrence of [sep]; the result is never
    empty, and [''.split(sep)] is [['']]. *)
Fixpoint split (sep : Ascii.ascii) (s : string) : list string :=
  match s with
  | EmptyString => [EmptyString]
  | String c rest =>
      if Ascii.eqb c sep then EmptyString :: split sep rest
      else match split sep rest with
           | [] => [String c EmptyString]
           | piece :: pieces => String c piece :: pieces
           end
  end.

Definition newline : Ascii.ascii := Ascii.ascii_of_nat 10.
Definition space : Ascii.ascii := Ascii.ascii_of_nat 32.

(** [v.split("\n")] on an arbitrary value: only [str] has a [split] method
    that accepts a [str] separator; [bytes.split] rejects it with a
    [TypeError], the other types have no such attribute. *)
Definition split_method (v : pyval) (sep : Ascii.ascii) : outcome (list string) :=
  match v with
  | PyStr s => Ok (split sep s)
  | PyBytes _ => Raise TypeError
  | _ => Raise AttributeError
  end.

(** ** [dict(list_of_tuples)] *)

(** Each tuple must have exactly two elements ([ValueError] otherwise);
    the entries are stored in order, so a later key overwrites an earlier
    one. *)
Definition dict_update_row (acc : outcome (gmap string string))
    (row : list string) : outcome (gmap string string) :=
  m ← acc;
  match row with
  | [k; v] => Ok (<[k := v]> m)
  | _ => Raise ValueError
  end.

Definition dict_from_rows (rows : list (list string)) : outcome (gmap string string) :=
  foldl dict_update_row (Ok ∅) rows.

(** The body of the [try] block of the MaxQuant loop, lines 233-237. *)
Definition parse_conf_item (parsed_conf_item : pyval) : outcome (gmap string string) :=
  if truthy parsed_conf_item then
    lines ← split_method parsed_conf_item newline;
    dict_from_rows (map (split space) lines)
  else Ok ∅.

(** ** The store of dictionary objects *)

(** [config] is a reference to a mutable [dict]; the store maps each
    reference to the current content of its object. *)
Definition loc := positive.
Abbreviation heap := (gmap loc (gmap string pyval)).

(** Computations that read and write the store and may raise.  Writes made
    before an exception stay in the store. *)
Definition M (A : Type) : Type := heap → outcome A * heap.

Global Instance M_ret : MRet M := λ A a h, (Ok a, h).
Global Instance M_bind : MBind M := λ A B f m h,
  match m h with
  | (Ok a, h') => f a h'
  | (Raise e, h') => (Raise e, h')
  end.

Definition raise {A} (e : exn) : M A := λ h, (Raise e, h).

Definition lift {A} (r : outcome A) : M A := λ h, (r, h).

(** [try: body except Exception: handler]. *)
Definition try_except {A} (body : M A) (handler : exn → M A) : M A := λ h,
  match body h with
  | (Ok a, h') => (Ok a, h')
  | (Raise e, h') => handler e h'
  end.

(** [d.pop(key)]: removes [key] from the object and returns its value, or
    raises [KeyError] and leaves the object as it is.  (A reference that
    the store does not hold reads as an empty dictionary; a running
    program has none.) *)
Definition dict_pop (d : loc) (key : string) : M pyval := λ h,
  match h !! d ≫= (.!! key) with
  | Some v => (Ok v, alter (delete key) d h)
  | None => (Raise (KeyError key), h)
  end.

Fixpoint for_each {A S} (items : list A) (body : A → S → M S) (s : S) : M S :=
  match items with
  | [] => mret s
  | x :: rest => s' ← body x s; for_each rest body s'
  end.

(** ** [parse_settings] *)

(** The dictionary built at lines 223-227.  [general] holds a reference:
    the source stores [config] itself under that key. *)
Record ParsedConfig : Type := {
  general : loc;
  maxquant_to_rescore : gmap string (gmap string string);
  ms2pip : gmap string pyval;
}.

Definition maxquant_msg : string :=
  "Invalid MaxQuant modification configuration. Make sure that the " +:+
  "modification configuration fields are formatted correctly.".

Definition ms2pip_msg : string :=
  "Invalid MS²PIP modification configuration. Make sure that the " +:+
  "modification configuration field is formatted correctly.".

Definition conf_items : list string := ["modification_mapping"; "fixed_modifications"].

(** One iteration of the loop of lines 230-243. *)
Definition maxquant_item (conf_item : string) (parsed_config : ParsedConfig)
    : M ParsedConfig :=
  parsed_conf_item ← dict_pop (general parsed_config) conf_item;
  try_except
    (parsed ← lift (parse_conf_item parsed_conf_item);
     mret {| general := general parsed_config;
             maxquant_to_rescore :=
               <[conf_item := parsed]> (maxquant_to_rescore parsed_config);
             ms2pip := ms2pip parsed_config |})
    (λ _, raise (MS2RescoreGUIError maxquant_msg)).

Section Parser.

(** [ast.literal_eval], applied to whatever value the form holds. *)
Variable literal_eval : pyval → outcome pyval.

Definition parse_settings (config : loc) : M ParsedConfig :=
  let parsed_config :=
    {| general := config; maxquant_to_rescore := ∅; ms2pip := ∅ |} in
  parsed_config ← for_each conf_items maxquant_item parsed_config;
  model ← dict_pop (general parsed_config) "ms2pip_model";
  frag_error ← dict_pop (general parsed_config) "ms2pip_frag_error";
  let parsed_config :=
    {| general := general parsed_config;
       maxquant_to_rescore := maxquant_to_rescore parsed_config;
       ms2pip := <["frag_error" := frag_error]> (<["model" := model]> ∅) |} in
  modifications ←
    try_except
      (text ← dict_pop (general parsed_config) "ms2pip_modifications";
       lift (literal_eval text))
      (λ _, raise (MS2RescoreGUIError ms2pip_msg));
  mret {| general := general parsed_config;
          maxquant_to_rescore := maxquant_to_rescore parsed_config;
          ms2pip := <["modifications" := modifications]> (ms2pip parsed_config) |}.

End Parser.

(** ** A literal evaluator to run the model with *)

(** An evaluator for a fragment of Python's literal grammar: [None],
    [True], [False], decimal integers, quoted strings without escapes,
    lists, and dictionaries with distinct string keys, separated by spaces.
    Texts outside the fragment are rejected.  It instantiates
    [literal_eval] where the model is run on concrete inputs; no statement
    about all inputs depends on it. *)
Module Fragment.

Fixpoint skip_spaces (s : string) : string :=
  match s with
  | String c rest => if Ascii.eqb c space then skip_spaces rest else s
  | EmptyString => s
  end.

Definition digit_value (c : Ascii.ascii) : option Z :=
  let n := Ascii.nat_of_ascii c in
  if (48 <=? n)%nat && (n <=? 57)%nat then Some (Z.of_nat n - 48)%Z else None.

Fixpoint read_digits (s : string) (acc : Z) : Z * string :=
  match s with
  | String c rest =>
      match digit_value c with
      | Some d => read_digits rest (10 * acc + d)%Z
      | None => (acc, s)
      end
  | EmptyString => (acc, s)
  end.

(** A decimal integer: [0], or a non-zero digit followed by digits. *)
Definition read_int (s : string) : option (Z * string) :=
  match s with
  | String c rest =>
      match digit_value c with
      | Some 0%Z =>
          match rest with
          | String c' _ => if digit_value c' is Some _ then None else Some (0%Z, rest)
          | EmptyString => Some (0%Z, rest)
          end
      | Some d => Some (read_digits rest d)
      | None => None
      end
  | EmptyString => None
  end.

Definition double_quote : ascii := Ascii.ascii_of_nat 34.

(** The text up to the closing quote [q]; no backslash, no line break. *)
Fixpoint read_quoted (q : Ascii.ascii) (s : string) : option (string * string) :=
  match s with
  | String c rest =>
      if Ascii.eqb c q then Some (EmptyString, rest)
      else if Ascii.eqb c "\"%char || Ascii.eqb c newline then None
      else '(body, rest') ← read_quoted q rest; Some (String c body, rest')
  | EmptyString => None
  end.

Definition read_keyword (s : string) : option (pyval * string) :=
  if String.prefix "None" s then Some (PyNone, String.substring 4 (String.length s - 4) s)
  else if String.prefix "True" s then Some (PyBool true, String.substring 4 (String.length s - 4) s)
  else if String.prefix "False" s then Some (PyBool false, String.substring 5 (String.length s - 5) s)
  else None.

Definition has_key (k : string) (entries : list (pyval * pyval)) : bool :=
  existsb (λ e, match e.1 with PyStr k' => String.eqb k k' | _ => false end) entries.

Fixpoint eval_value (fuel : nat) (s : string) : option (pyval * string) :=
  match fuel with
  | O => None
  | S fuel =>
      match skip_spaces s with
      | String c rest =>
          if Ascii.eqb c "["%char then eval_list fuel rest []
          else if Ascii.eqb c "{"%char then eval_dict fuel rest []
          else if Ascii.eqb c "'"%char || Ascii.eqb c double_quote then
            '(body, rest') ← read_quoted c rest; Some (PyStr body, rest')
          else if Ascii.eqb c "-"%char then
            '(z, rest') ← read_int rest; Some (PyInt (- z), rest')
          else
            match read_int (String c rest) with
            | Some (z, rest') => Some (PyInt z, rest')
            | None => read_keyword (String c rest)
            end
      | EmptyString => None
      end
  end
with eval_list (fuel : nat) (s : string) (acc : list pyval) : option (pyval * string) :=
  match fuel with
  | O => None
  | S fuel =>
      match skip_spaces s with
      | String "]" rest => Some (PyList (reverse acc), rest)
      | s' =>
          '(v, rest) ← eval_value fuel s';
          match skip_spaces rest with
          | String "," rest' => eval_list fuel rest' (v :: acc)
          | String "]" rest' => Some (PyList (reverse (v :: acc)), rest')
          | _ => None
          end
      end
  end
with eval_dict (fuel : nat) (s : string) (acc : list (pyval * pyval)) : option (pyval * string) :=
  match fuel with
  | O => None
  | S fuel =>
      match skip_spaces s with
      | String "}" rest => Some (PyDict (reverse acc), rest)
      | s' =>
          '(k, rest) ← eval_value fuel s';
          match k, skip_spaces rest with
          | PyStr key, String ":" rest' =>
              if has_key key acc then None
              else
                '(v, rest'') ← eval_value fuel rest';
                match skip_spaces rest'' with
                | String "," rest3 => eval_dict fuel rest3 ((k, v) :: acc)
                | String "}" rest3 => Some (PyDict (reverse ((k, v) :: acc)), rest3)
                | _ => None
                end
          | _, _ => None
          end
      end
  end.

(** [ast.literal_eval] accepts a [str] (or a syntax tree) only. *)
Definition literal_eval (v : pyval) : outcome pyval :=
  match v with
  | PyStr s =>
      match eval_value (S (String.length s)) s with
      | Some (lit, rest) =>
          match skip_spaces rest with
          | EmptyString => Ok lit
          | _ => Raise SyntaxError
          end
      | None => Raise SyntaxError
      end
  | _ => Raise ValueError
  end.

End Fragment.

(** ** Vocabulary of the statements *)

(** Number of occurrences of a character; a line splits into exactly two
    space-separated tokens when it holds exactly one space. *)
Fixpoint count_char (c : ascii) (s : string) : nat :=
  match s with
  | EmptyString => 0
  | String c' rest => (if Ascii.eqb c' c then 1 else 0) + count_char c rest
  end.

(** [sep.join(parts)]. *)
Fixpoint join (sep : ascii) (parts : list string) : string :=
  match parts with
  | [] => EmptyString
  | [p] => p
  | p :: rest => p +:+ String sep (join sep rest)
  end.

(** A text block given by its lines. *)
Definition text_block (lines : list string) : Prop :=
  join newline lines ≠ "" ∧ Forall (λ line, count_char newline line = 0) lines.

(** The line [label name] of a (short-label, full-name) pair. *)
Definition line_of_pair (p : string * string) : string :=
  p.1 +:+ String space p.2.

Definition row_of_pair (p : string * string) : list string := [p.1; p.2].

(** A token holds neither a space nor a line break. *)
Definition token (s : string) : Prop :=
  count_char space s = 0 ∧ count_char newline s = 0.

(** A field value is a malformed modification text when it is a non-empty
    text one of whose lines does not hold exactly one space. *)
Definition malformed_text (v : pyval) : Prop :=
  ∃ lines line,
    v = PyStr (join newline lines) ∧ text_block lines ∧
    line ∈ lines ∧ count_char space line ≠ 1.

(** The MaxQuant field [f] of [cfg] is present and its [try] body runs
    without an exception. *)
Definition conf_item_ok (cfg : gmap string pyval) (f : string) : Prop :=
  ∃ v m, cfg !! f = Some v ∧ parse_conf_item v = Ok m.

Definition maxquant_ok (cfg : gmap string pyval) : Prop :=
  ∀ f, f ∈ conf_items → conf_item_ok cfg f.

Definition ms2pip_scalars_present (cfg : gmap string pyval) : Prop :=
  is_Some (cfg !! "ms2pip_model") ∧ is_Some (cfg !! "ms2pip_frag_error").

(** The text of the MS²PIP modifications is present and evaluates. *)
Definition ms2pip_text_ok (literal_eval : pyval → outcome pyval)
    (cfg : gmap string pyval) : Prop :=
  ∃ text lit, cfg !! "ms2pip_modifications" = Some text ∧ literal_eval text = Ok lit.

(** Every stage other than the MaxQuant field [f] passes. *)
Definition rest_ok (literal_eval : pyval → outcome pyval)
    (cfg : gmap string pyval) (f : string) : Prop :=
  (∀ g, g ∈ conf_items → g ≠ f → conf_item_ok cfg g) ∧
  ms2pip_scalars_present cfg ∧ ms2pip_text_ok literal_eval cfg.

(** The keys popped outside every [try] block, and all the popped keys. *)
Definition unguarded_keys : list string :=
  conf_items ++ ["ms2pip_model"; "ms2pip_frag_error"].

Definition relocated_keys : list string :=
  unguarded_keys ++ ["ms2pip_modifications"].

(** The keys popped by the first [n] pops, the latest first. *)
Definition popped (n : nat) : list string := reverse (take n relocated_keys).

Definition with_maxquant (pc : ParsedConfig) (f : string) (m : gmap string string)
    : ParsedConfig :=
  {| general := general pc;
     maxquant_to_rescore := <[f := m]> (maxquant_to_rescore pc);
     ms2pip := ms2pip pc |}.

(** The binary64 number written [0.02]: 5764607523034235 * 2^-58. *)
Definition float_0_02 : spec_float := S754_finite false 5764607523034235 (-58).

(** The general settings of a run with the defaults of the form. *)
Definition general_values : gmap string pyval :=
  {[ "identification_file" := PyStr "msms.txt";
     "mgf_path" := PyNone;
     "config_file" := PyNone;
     "tmp_path" := PyNone;
     "output_filename" := PyNone;
     "pipeline" := PyStr "infer";
     "log_level" := PyStr "info" ]}.

(** The form values of a run with these general settings, the default
    model and error tolerance, and the given three text blocks. *)
Definition form_values (fixed_modifications modification_mapping
    ms2pip_modifications : string) : gmap string pyval :=
  <["fixed_modifications" := PyStr fixed_modifications]>
    (<["modification_mapping" := PyStr modification_mapping]>
       (<["ms2pip_model" := PyStr "HCD2021"]>
          (<["ms2pip_frag_error" := PyFloat float_0_02]>
             (<["ms2pip_modifications" := PyStr ms2pip_modifications]>
                general_values)))).

(** The input of the end-to-end example. *)
Definition example_config : gmap string pyval :=
  form_values "C Carbamidomethyl" (join newline ["ox Oxidation"; "ac Acetyl"]) "[]".

(** Runs of [parse_settings] on a store that holds one dictionary. *)
Definition run_on (cfg : gmap string pyval)
    : outcome ParsedConfig * gmap loc (gmap string pyval) :=
  parse_settings Fragment.literal_eval 1%positive {[1%positive := cfg]}.

(** Inputs with one malformed MaxQuant text: a line of a single token. *)
Definition bad_mapping_config : gmap string pyval :=
  form_values "C Carbamidomethyl" "Oxidation" "[]".

Definition bad_fixed_config : gmap string pyval :=
  form_values "Carbamidomethyl" "ox Oxidation" "[]".

(** An input whose fixed modification has a full name with a space. *)
Definition spaced_name_config : gmap string pyval :=
  form_values "C Carbamido methyl" "ox Oxidation" "[]".

(** An input with an empty fixed_modifications text. *)
Definition empty_fixed_config : gmap string pyval :=
  form_values "" "ox Oxidation" "[]".

(** A modification mapping that repeats the label [cm]. *)
Definition duplicate_pairs : list (string * string) :=
  [("cm", "Carbamidomethyl"); ("ox", "Oxidation"); ("cm", "Carboxymethyl")].

Definition duplicate_config : gmap string pyval :=
  form_values "C Carbamidomethyl" (join newline (line_of_pair <$> duplicate_pairs)) "[]".

(** Inputs with an unbalanced bracket and with a bare number as the
    MS²PIP modifications text. *)
Definition unbalanced_config : gmap string pyval :=
  form_values "C Carbamidomethyl" "ox Oxidation" "[".

Definition number_config : gmap string pyval :=
  form_values "C Carbamidomethyl" "ox Oxidation" "7".

(** An input whose MS²PIP modifications text lists one record. *)
Definition records_config : gmap string pyval :=
  form_values "C Carbamidomethyl" "ox Oxidation"
    "[{'name': 'Oxidation', 'unimod_accession': 35, 'n_term': False}]".

(** An input whose modification mapping is a line of one space followed
    by a name: the label before the space is empty. *)
Definition empty_label_config : gmap string pyval :=
  form_values "C Carbamidomethyl" " Oxidation" "[]".

(** The same two MS²PIP texts after a modification mapping of a single
    token. *)
Definition unbalanced_bad_mapping_config : gmap string pyval :=
  form_values "C Carbamidomethyl" "Oxidation" "[".

Definition number_bad_mapping_config : gmap string pyval :=
  form_values "C Carbamidomethyl" "Oxidation" "7".

(** What the run on [example_config] returns. *)
Definition example_result : ParsedConfig :=
  {| general := 1%positive;
     maxquant_to_rescore :=
       {[ "fixed_modifications" := {[ "C" := "Carbamidomethyl" ]};
          "modification_mapping" := {[ "ox" := "Oxidation"; "ac" := "Acetyl" ]} ]};
     ms2pip :=
       {[ "model" := PyStr "HCD2021";
          "frag_error" := PyFloat float_0_02;
          "modifications" := PyList [] ]} |}.

(** ** The form declared by [_parse_arguments] *)

(** The [type=] of an argument. *)
Inductive arg_type : Type := ArgStr | ArgFloat.

(** One [add_argument] call of [_parse_arguments]: the key it writes
    ([dest], for the positional argument its name), the conversion, the
    default ([None] when the call gives none) and the admitted choices.
    What only concerns the display (flags, metavar, help, widget and its
    options) is left out. *)
Record argument : Type := {
  arg_dest : string;
  arg_conversion : arg_type;
  arg_default : option pyval;
  arg_choices : option (list string);
  arg_positional : bool;
}.

(** The default of modification_mapping, lines 163-166. *)
Definition default_modification_mapping : string :=
  join newline ["cm Carbamidomethyl"; "ox Oxidation"; "ac Acetyl";
                "cm Carbamidomethyl"; "de Deamidated"; "gl Gln->pyro-Glu"].

Section Form.

(** [ms2pip_models.keys()], the models of the installed MS²PIP, and the
    text [pprint.pformat(ms2pip_mods, compact=True, width=200)] of the
    modifications of the bundled default configuration. *)
Variable ms2pip_models : list string.
Variable ms2pip_mods_text : string.

(** The arguments in the order [_parse_arguments] adds them. *)
Definition declared_arguments : list argument := [
  {| arg_dest := "identification_file"; arg_conversion := ArgStr;
     arg_default := None; arg_choices := None; arg_positional := true |};
  {| arg_dest := "mgf_path"; arg_conversion := ArgStr;
     arg_default := None; arg_choices := None; arg_positional := false |};
  {| arg_dest := "config_file"; arg_conversion := ArgStr;
     arg_default := None; arg_choices := None; arg_positional := false |};
  {| arg_dest := "tmp_path"; arg_conversion := ArgStr;
     arg_default := None; arg_choices := None; arg_positional := false |};
  {| arg_dest := "output_filename"; arg_conversion := ArgStr;
     arg_default := None; arg_choices := None; arg_positional := false |};
  {| arg_dest := "pipeline"; arg_conversion := ArgStr;
     arg_default := Some (PyStr "infer");
     arg_choices := Some ["infer"; "pin"; "maxquant"; "msgfplus"; "tandem";
                          "peptideschaker"; "peaks"];
     arg_positional := false |};
  {| arg_dest := "log_level"; arg_conversion := ArgStr;
     arg_default := Some (PyStr "info");
     arg_choices := Some ["debug"; "info"; "warning"; "error"; "critical"];
     arg_positional := false |};
  {| arg_dest := "fixed_modifications"; arg_conversion := ArgStr;
     arg_default := Some (PyStr "C Carbamidomethyl");
     arg_choices := None; arg_positional := false |};
  {| arg_dest := "modification_mapping"; arg_conversion := ArgStr;
     arg_default := Some (PyStr default_modification_mapping);
     arg_choices := None; arg_positional := false |};
  {| arg_dest := "ms2pip_model"; arg_conversion := ArgStr;
     arg_default := Some (PyStr "HCD2021");
     arg_choices := Some ms2pip_models; arg_positional := false |};
  {| arg_dest := "ms2pip_frag_error"; arg_conversion := ArgFloat;
     arg_default := Some (PyFloat float_0_02);
     arg_choices := None; arg_positional := false |};
  {| arg_dest := "ms2pip_modifications"; arg_conversion := ArgStr;
     arg_default := Some (PyStr ms2pip_mods_text);
     arg_choices := None; arg_positional := false |}
].

(** The default [_parse_arguments] declares for the key [d]. *)
Definition declared_default (d : string) : option pyval :=
  match list_find (λ a, arg_dest a = d) declared_arguments with
  | Some (_, a) => arg_default a
  | None => None
  end.

(** A mapping with a value for every declared argument, as
    [parser.parse_args()] returns. *)
Definition holds_every_dest (ns : gmap string pyval) : Prop :=
  ∀ a, a ∈ declared_arguments → is_Some (ns !! arg_dest a).

End Form.

(** ** The Python operations on small inputs *)

Example split_empty : split space "" = [""].
Proof. reflexivity. Qed.

Example split_leading_space : split space " a" = [""; "a"].
Proof. reflexivity. Qed.

Example split_two_spaces : split space "a  b" = ["a"; ""; "b"].
Proof. reflexivity. Qed.

Example split_lines :
  split newline (join newline ["ox Oxidation"; "ac Acetyl"])
  = ["ox Oxidation"; "ac Acetyl"].
Proof. reflexivity. Qed.

Example dict_from_rows_overwrites :
  dict_from_rows [["a"; "1"]; ["b"; "2"]; ["a"; "3"]]
  = Ok {[ "a" := "3"; "b" := "2" ]}.
Proof. reflexivity. Qed.

Example dict_from_rows_short_row :
  dict_from_rows [["a"; "1"]; ["b"]] = Raise ValueError.
Proof. reflexivity. Qed.

Example parse_conf_item_none : parse_conf_item PyNone = Ok ∅.
Proof. reflexivity. Qed.

Example parse_conf_item_number : parse_conf_item (PyInt 5) = Raise AttributeError.
Proof. reflexivity. Qed.

Example parse_conf_item_empty_label : parse_conf_item (PyStr " a") = Ok {[ "" := "a" ]}.
Proof. reflexivity. Qed.

Example parse_conf_item_trailing_newline :
  parse_conf_item (PyStr (join newline ["ox Oxidation"; ""])) = Raise ValueError.
Proof. reflexivity. Qed.

Example literal_eval_records :
  Fragment.literal_eval (PyStr "[{'name': 'Oxidation', 'unimod_accession': 35, 'n_term': False}]")
  = Ok (PyList [PyDict [(PyStr "name", PyStr "Oxidation");
                        (PyStr "unimod_accession", PyInt 35);
                        (PyStr "n_term", PyBool false)]]).
Proof. reflexivity. Qed.

Example literal_eval_unbalanced : Fragment.literal_eval (PyStr "[") = Raise SyntaxError.
Proof. reflexivity. Qed.

(** ** Facts about [split] *)

Lemma split_nonempty sep s : split sep s ≠ [].
Proof.
  destruct s as [|c s]; simpl; [done|].
  destruct (Ascii.eqb c sep); [done|]. by destruct (split sep s).
Qed.

Lemma length_split sep s : length (split sep s) = S (count_char sep s).
Proof.
  induction s as [|c s IH]; simpl; [done|].
  destruct (Ascii.eqb c sep); simpl; [by rewrite IH|].
  pose proof (split_nonempty sep s).
  destruct (split sep s); [done|]. simpl in *. lia.
Qed.

Lemma split_no_sep sep s : count_char sep s = 0 → split sep s = [s].
Proof.
  induction s as [|c s IH]; simpl; [done|].
  destruct (Ascii.eqb c sep); simpl; [done|]. intros H. by rewrite IH.
Qed.

Lemma split_app_sep sep a b :
  count_char sep a = 0 → split sep (a +:+ String sep b) = a :: split sep b.
Proof.
  induction a as [|c a IH]; simpl.
  - intros _. by rewrite Ascii.eqb_refl.
  - destruct (Ascii.eqb c sep); simpl; [done|]. intros H. by rewrite IH.
Qed.

Lemma split_join sep parts :
  parts ≠ [] → Forall (λ p, count_char sep p = 0) parts →
  split sep (join sep parts) = parts.
Proof.
  induction parts as [|p parts IH]; [done|]. intros _ Hall.
  apply Forall_cons in Hall as [Hp Hall].
  destruct parts as [|p' parts].
  - simpl. by apply split_no_sep.
  - change (join sep (p :: p' :: parts))
      with (p +:+ String sep (join sep (p' :: parts))).
    rewrite split_app_sep by done. by rewrite IH.
Qed.

Lemma join_split sep s : join sep (split sep s) = s.
Proof.
  induction s as [|c s IH]; simpl; [done|].
  pose proof (split_nonempty sep s) as Hne.
  destruct (Ascii.eqb_spec c sep) as [->|_].
  - destruct (split sep s) as [|piece pieces]; [done|].
    change (join sep ("" :: piece :: pieces))
      with ("" +:+ String sep (join sep (piece :: pieces))).
    by rewrite IH.
  - destruct (split sep s) as [|piece pieces]; [done|].
    rewrite <- IH. by destruct pieces.
Qed.

Lemma count_char_app c a b :
  count_char c (a +:+ b) = count_char c a + count_char c b.
Proof. induction a as [|c' a IH]; simpl; [done|]. rewrite IH. lia. Qed.

Lemma split_line_of_pair p :
  count_char space p.1 = 0 → count_char space p.2 = 0 →
  split space (line_of_pair p) = row_of_pair p.
Proof.
  intros H1 H2. unfold line_of_pair, row_of_pair.
  rewrite split_app_sep by done. by rewrite split_no_sep.
Qed.

Lemma count_space_line_of_pair p :
  count_char space (line_of_pair p) = S (count_char space p.1 + count_char space p.2).
Proof. unfold line_of_pair. rewrite count_char_app. simpl. lia. Qed.

Lemma count_newline_line_of_pair p :
  count_char newline (line_of_pair p) = count_char newline p.1 + count_char newline p.2.
Proof. unfold line_of_pair. by rewrite count_char_app. Qed.

Lemma join_nonempty sep lines line :
  line ∈ lines → line ≠ "" → join sep lines ≠ "".
Proof.
  induction lines as [|l lines IH]; intros Hin Hne.
  - by apply elem_of_nil in Hin.
  - destruct lines as [|l' lines].
    + apply list_elem_of_singleton in Hin as ->. done.
    + change (join sep (l :: l' :: lines))
        with (l +:+ String sep (join sep (l' :: lines))).
      by destruct l.
Qed.

Lemma text_block_lines lines :
  text_block lines → split newline (join newline lines) = lines.
Proof.
  intros [Hne Hall]. apply split_join; [|done]. by intros ->.
Qed.

(** ** Facts about the [dict] constructor *)

Lemma foldl_dict_update_row_raise e rows :
  foldl dict_update_row (Raise e) rows = Raise e.
Proof. induction rows as [|row rows IH]; simpl; [done|]. apply IH. Qed.

Lemma foldl_dict_update_row_pairs m pairs :
  foldl dict_update_row (Ok m) (row_of_pair <$> pairs)
  = Ok (foldl (λ m p, <[p.1 := p.2]> m) m pairs).
Proof.
  revert m. induction pairs as [|[k v] pairs IH]; intros m; simpl; [done|].
  apply IH.
Qed.

Lemma dict_from_rows_bad rows row :
  row ∈ rows → length row ≠ 2 → dict_from_rows rows = Raise ValueError.
Proof.
  unfold dict_from_rows. generalize (∅ : gmap string string).
  induction rows as [|r rows IH]; intros m Hin Hlen.
  - by apply elem_of_nil in Hin.
  - simpl. apply elem_of_cons in Hin as [<-|Hin].
    + destruct row as [|a [|b [|c row]]]; simpl in *; try done;
        apply foldl_dict_update_row_raise.
    + destruct r as [|a [|b [|c r]]]; simpl;
        try apply foldl_dict_update_row_raise. by apply IH.
Qed.

Lemma foldl_dict_update_row_Ok_inv m0 rows m :
  foldl dict_update_row (Ok m0) rows = Ok m →
  ∃ pairs, rows = row_of_pair <$> pairs ∧
           m = foldl (λ m p, <[p.1 := p.2]> m) m0 pairs.
Proof.
  revert m0. induction rows as [|row rows IH]; intros m0; simpl.
  - intros [= <-]. by exists [].
  - destruct row as [|k [|v [|x row]]]; simpl;
      rewrite ?foldl_dict_update_row_raise; try done.
    intros Hm. destruct (IH _ Hm) as (pairs & -> & ->).
    by exists ((k, v) :: pairs).
Qed.

Lemma dict_from_rows_Ok_inv rows m :
  dict_from_rows rows = Ok m →
  ∃ pairs, rows = row_of_pair <$> pairs ∧
           m = foldl (λ m p, <[p.1 := p.2]> m) ∅ pairs.
Proof. apply foldl_dict_update_row_Ok_inv. Qed.

(** Sequential insertion: the binding of a key is that of its last
    occurrence in the list. *)
Lemma foldl_insert_last_wins (pairs : list (string * string)) k v :
  foldl (λ m p, <[p.1 := p.2]> m) (∅ : gmap string string) pairs !! k = Some v ↔
  ∃ i, pairs !! i = Some (k, v) ∧
       ∀ j p, i < j → pairs !! j = Some p → p.1 ≠ k.
Proof.
  revert k v. induction pairs as [|[k0 v0] pairs IH] using rev_ind; intros k v.
  - simpl. rewrite lookup_empty. split; [done|]. by intros (i & Hi & _).
  - rewrite foldl_app. simpl. destruct (decide (k0 = k)) as [->|Hne].
    + rewrite lookup_insert_eq. split.
      * intros [= ->]. exists (length pairs). split.
        { by rewrite lookup_app_r, Nat.sub_diag by lia. }
        intros j p Hj Hp. apply lookup_lt_Some in Hp.
        rewrite length_app in Hp. simpl in Hp. lia.
      * intros (i & Hi & Hlast).
        destruct (decide (i < length pairs)) as [Hlt|Hge].
        { exfalso. apply (Hlast (length pairs) (k, v0)); [done| |done].
          by rewrite lookup_app_r, Nat.sub_diag by lia. }
        rewrite lookup_app_r in Hi by lia.
        destruct (i - length pairs) as [|n] eqn:Hn; simpl in Hi; [|done].
        by injection Hi as ->.
    + rewrite lookup_insert_ne by done. rewrite IH. split.
      * intros (i & Hi & Hlast). exists i. split.
        { by apply lookup_app_l_Some. }
        intros j p Hj Hp. destruct (decide (j < length pairs)) as [Hlt|Hge].
        { rewrite lookup_app_l in Hp by done. by eapply Hlast. }
        rewrite lookup_app_r in Hp by lia.
        destruct (j - length pairs) as [|n]; simpl in Hp; [|done].
        by injection Hp as <-.
      * intros (i & Hi & Hlast).
        destruct (decide (i < length pairs)) as [Hlt|Hge].
        { exists i. rewrite lookup_app_l in Hi by done. split; [done|].
          intros j p Hj Hp. apply (Hlast j p Hj). by apply lookup_app_l_Some. }
        rewrite lookup_app_r in Hi by lia.
        destruct (i - length pairs) as [|n]; simpl in Hi; [|done].
        by injection Hi as -> ->.
Qed.

Lemma foldl_insert_dom (pairs : list (string * string)) :
  dom (foldl (λ m p, <[p.1 := p.2]> m) (∅ : gmap string string) pairs)
  = list_to_set pairs.*1.
Proof.
  induction pairs as [|[k0 v0] pairs IH] using rev_ind.
  - simpl. apply dom_empty_L.
  - rewrite foldl_app, fmap_app, list_to_set_app_L. simpl.
    rewrite dom_insert_L, IH, (right_id_L ∅ (∪)). apply (comm_L (∪)).
Qed.

Lemma foldl_insert_size (pairs : list (string * string)) :
  size (foldl (λ m p, <[p.1 := p.2]> m) (∅ : gmap string string) pairs)
  = length (remove_dups pairs.*1).
Proof.
  rewrite <- size_dom, foldl_insert_dom.
  rewrite <- (size_list_to_set (C := gset string) (remove_dups pairs.*1))
    by apply NoDup_remove_dups.
  f_equal. apply set_eq. intros k.
  by rewrite !elem_of_list_to_set, elem_of_remove_dups.
Qed.

(** ** Facts about the [try] body of the MaxQuant loop *)

Lemma parse_conf_item_empty : parse_conf_item (PyStr "") = Ok ∅.
Proof. reflexivity. Qed.

Lemma parse_conf_item_text lines :
  text_block lines →
  parse_conf_item (PyStr (join newline lines))
  = dict_from_rows (map (split space) lines).
Proof.
  intros Hblock. unfold parse_conf_item. simpl.
  destruct (String.eqb_spec (join newline lines) "") as [Heq|_].
  { by destruct Hblock. }
  simpl. by rewrite text_block_lines.
Qed.

Lemma parse_conf_item_malformed v :
  malformed_text v → parse_conf_item v = Raise ValueError.
Proof.
  intros (lines & line & -> & Hblock & Hin & Hcount).
  rewrite parse_conf_item_text by done.
  apply dict_from_rows_bad with (row := split space line).
  - apply list_elem_of_In, in_map, list_elem_of_In, Hin.
  - rewrite length_split. lia.
Qed.

Lemma text_block_pairs pairs :
  pairs ≠ [] → Forall (λ p, token p.1 ∧ token p.2) pairs →
  text_block (line_of_pair <$> pairs).
Proof.
  intros Hne Hall. split.
  - destruct pairs as [|p pairs]; [done|].
    apply join_nonempty with (line := line_of_pair p); [left|].
    unfold line_of_pair. by destruct p.1.
  - apply Forall_fmap. eapply Forall_impl; [exact Hall|].
    intros p [[_ H1] [_ H2]]. simpl. rewrite count_newline_line_of_pair. lia.
Qed.

Lemma parse_conf_item_pairs pairs :
  pairs ≠ [] → Forall (λ p, token p.1 ∧ token p.2) pairs →
  parse_conf_item (PyStr (join newline (line_of_pair <$> pairs)))
  = Ok (foldl (λ m p, <[p.1 := p.2]> m) ∅ pairs).
Proof.
  intros Hne Hall.
  rewrite parse_conf_item_text by by apply text_block_pairs.
  unfold dict_from_rows. rewrite <- foldl_dict_update_row_pairs. f_equal.
  rewrite <- list_fmap_compose. apply Forall_fmap_ext_1.
  eapply Forall_impl; [exact Hall|].
  intros p [[H1 _] [H2 _]]. simpl. by apply split_line_of_pair.
Qed.

(** Every text block whose lines each hold exactly one space is the text
    of a list of pairs of tokens. *)
Lemma one_space_line line :
  count_char space line = 1 → count_char newline line = 0 →
  ∃ p, line = line_of_pair p ∧ token p.1 ∧ token p.2.
Proof.
  intros Hspace Hnewline.
  pose proof (length_split space line) as Hlen. rewrite Hspace in Hlen.
  pose proof (join_split space line) as Hjoin.
  destruct (split space line) as [|a [|b [|c pieces]]]; try done.
  change (join space [a; b]) with (line_of_pair (a, b)) in Hjoin.
  exists (a, b). split; [done|]. subst line.
  rewrite count_space_line_of_pair in Hspace.
  rewrite count_newline_line_of_pair in Hnewline.
  simpl in *. unfold token. lia.
Qed.

Lemma text_block_one_space_pairs lines :
  text_block lines → Forall (λ line, count_char space line = 1) lines →
  ∃ pairs,
    pairs ≠ [] ∧ Forall (λ p, token p.1 ∧ token p.2) pairs ∧
    lines = line_of_pair <$> pairs.
Proof.
  intros [Hne Hnewline] Hspace.
  assert (∃ pairs, Forall (λ p, token p.1 ∧ token p.2) pairs ∧
                   lines = line_of_pair <$> pairs) as (pairs & Htok & ->).
  { clear Hne. induction lines as [|line lines IH].
    - by exists [].
    - apply Forall_cons in Hnewline as [Hn Hnewline].
      apply Forall_cons in Hspace as [Hs Hspace].
      destruct (one_space_line line Hs Hn) as (p & -> & Hp).
      destruct (IH Hnewline Hspace) as (pairs & Htok & ->).
      exists (p :: pairs). split; [by constructor|done]. }
  exists pairs. split; [|done]. by intros ->.
Qed.

Lemma line_of_pair_fmap_inj pairs pairs' :
  Forall (λ p, token p.1 ∧ token p.2) pairs →
  Forall (λ p, token p.1 ∧ token p.2) pairs' →
  line_of_pair <$> pairs = line_of_pair <$> pairs' → pairs = pairs'.
Proof.
  intros Htok. revert pairs'.
  induction Htok as [|p pairs [[Hp1 _] [Hp2 _]] Htok IH];
    intros pairs' Htok' Heq.
  - by destruct pairs'.
  - destruct Htok' as [|q pairs' [[Hq1 _] [Hq2 _]] Htok']; [done|].
    injection Heq as Hline Hrest. f_equal; [|by apply IH].
    apply (f_equal (split space)) in Hline.
    rewrite !split_line_of_pair in Hline by done.
    destruct p, q. by injection Hline as -> ->.
Qed.

Lemma parse_example_mapping :
  parse_conf_item (PyStr (join newline ["ox Oxidation"; "ac Acetyl"]))
  = Ok {[ "ox" := "Oxidation"; "ac" := "Acetyl" ]}.
Proof.
  change (PyStr _) with
    (PyStr (join newline (line_of_pair <$> [("ox", "Oxidation"); ("ac", "Acetyl")]))).
  rewrite parse_conf_item_pairs.
  - simpl. by f_equal.
  - done.
  - by repeat constructor.
Qed.

Lemma parse_example_fixed :
  parse_conf_item (PyStr "C Carbamidomethyl") = Ok {[ "C" := "Carbamidomethyl" ]}.
Proof.
  change (PyStr _) with
    (PyStr (join newline (line_of_pair <$> [("C", "Carbamidomethyl")]))).
  rewrite parse_conf_item_pairs.
  - done.
  - done.
  - by repeat constructor.
Qed.

Lemma maxquant_ok_intro cfg v1 m1 v2 m2 :
  cfg !! "modification_mapping" = Some v1 → parse_conf_item v1 = Ok m1 →
  cfg !! "fixed_modifications" = Some v2 → parse_conf_item v2 = Ok m2 →
  maxquant_ok cfg.
Proof.
  intros H1 Hm1 H2 Hm2 f Hf. unfold conf_items in Hf.
  apply elem_of_cons in Hf as [->|Hf];
    [|apply list_elem_of_singleton in Hf as ->].
  - by exists v1, m1.
  - by exists v2, m2.
Qed.

Lemma rest_ok_intro literal_eval cfg f g v m :
  f ∈ conf_items → g ∈ conf_items → g ≠ f →
  cfg !! g = Some v → parse_conf_item v = Ok m →
  ms2pip_scalars_present cfg → ms2pip_text_ok literal_eval cfg →
  rest_ok literal_eval cfg f.
Proof.
  intros Hf Hg Hne Hv Hm Hscalars Htext. split; [|done].
  intros g' Hg' Hne'. exists v, m. split; [|done].
  replace g' with g; [done|]. unfold conf_items in *.
  repeat match goal with
  | H : _ ∈ _ :: _ |- _ => apply elem_of_cons in H as [->|H]
  | H : _ ∈ [] |- _ => by apply elem_of_nil in H
  end; done.
Qed.

(** ** Facts about the store *)

Lemma dict_pop_present h d cfg key v :
  h !! d = Some cfg → cfg !! key = Some v →
  dict_pop d key h = (Ok v, <[d := delete key cfg]> h).
Proof.
  intros Hd Hk. unfold dict_pop. rewrite Hd. simpl. rewrite Hk.
  f_equal. apply map_eq. intros l. rewrite lookup_alter, lookup_insert.
  destruct (decide (d = l)) as [<-|]; [by rewrite Hd|done].
Qed.

Lemma dict_pop_absent h d cfg key :
  h !! d = Some cfg → cfg !! key = None →
  dict_pop d key h = (Raise (KeyError key), h).
Proof. intros Hd Hk. unfold dict_pop. rewrite Hd. simpl. by rewrite Hk. Qed.

Lemma dict_pop_insert h d cfg key :
  dict_pop d key (<[d := cfg]> h) =
    match cfg !! key with
    | Some v => (Ok v, <[d := delete key cfg]> h)
    | None => (Raise (KeyError key), <[d := cfg]> h)
    end.
Proof.
  destruct (cfg !! key) as [v|] eqn:Hk.
  - rewrite dict_pop_present with (cfg := cfg) (v := v);
      [|apply lookup_insert_eq|done].
    by rewrite insert_insert_eq.
  - by rewrite dict_pop_absent with (cfg := cfg); [|apply lookup_insert_eq|].
Qed.

Lemma foldr_delete_subseteq (cfg : gmap string pyval) keys :
  foldr delete cfg keys ⊆ cfg.
Proof.
  induction keys as [|k keys IH]; simpl; [done|].
  etrans; [apply delete_subseteq|done].
Qed.

(** The object after the first [n] pops. *)
Lemma popped_frame (cfg : gmap string pyval) n :
  foldr delete cfg (popped n) ⊆ cfg ∧
  ∀ k, k ∉ relocated_keys → foldr delete cfg (popped n) !! k = cfg !! k.
Proof.
  split; [apply foldr_delete_subseteq|].
  intros k Hk. apply lookup_foldr_delete_not_elem_of. intros Hin.
  apply Hk. unfold popped in Hin. rewrite elem_of_reverse in Hin.
  exact (subseteq_take n _ _ Hin).
Qed.

(** One iteration of the MaxQuant loop, by cases. *)
Lemma maxquant_item_eq f pc h cfg :
  h !! general pc = Some cfg →
  maxquant_item f pc h =
    match cfg !! f with
    | None => (Raise (KeyError f), h)
    | Some v =>
        match parse_conf_item v with
        | Ok m => (Ok (with_maxquant pc f m), <[general pc := delete f cfg]> h)
        | Raise _ =>
            (Raise (MS2RescoreGUIError maxquant_msg),
             <[general pc := delete f cfg]> h)
        end
    end.
Proof.
  intros Hh. unfold maxquant_item, mbind, M_bind.
  destruct (cfg !! f) as [v|] eqn:Hf.
  - rewrite (dict_pop_present _ _ _ _ _ Hh Hf).
    unfold try_except, lift, raise, mret, M_ret.
    by destruct (parse_conf_item v).
  - by rewrite (dict_pop_absent _ _ _ _ Hh Hf).
Qed.

Section ParserFacts.

Variable literal_eval : pyval → outcome pyval.

(** [parse_settings] stage by stage: each [match] is one statement of the
    source, in order, with the store it leaves behind. *)
Lemma parse_settings_eq config h cfg :
  h !! config = Some cfg →
  parse_settings literal_eval config h =
    match cfg !! "modification_mapping" with
    | None => (Raise (KeyError "modification_mapping"), h)
    | Some v1 =>
    let cfg1 := delete "modification_mapping" cfg in
    match parse_conf_item v1 with
    | Raise _ => (Raise (MS2RescoreGUIError maxquant_msg), <[config := cfg1]> h)
    | Ok m1 =>
    match cfg !! "fixed_modifications" with
    | None => (Raise (KeyError "fixed_modifications"), <[config := cfg1]> h)
    | Some v2 =>
    let cfg2 := delete "fixed_modifications" cfg1 in
    match parse_conf_item v2 with
    | Raise _ => (Raise (MS2RescoreGUIError maxquant_msg), <[config := cfg2]> h)
    | Ok m2 =>
    match cfg !! "ms2pip_model" with
    | None => (Raise (KeyError "ms2pip_model"), <[config := cfg2]> h)
    | Some model =>
    let cfg3 := delete "ms2pip_model" cfg2 in
    match cfg !! "ms2pip_frag_error" with
    | None => (Raise (KeyError "ms2pip_frag_error"), <[config := cfg3]> h)
    | Some frag_error =>
    let cfg4 := delete "ms2pip_frag_error" cfg3 in
    match cfg !! "ms2pip_modifications" with
    | None => (Raise (MS2RescoreGUIError ms2pip_msg), <[config := cfg4]> h)
    | Some text =>
    let cfg5 := delete "ms2pip_modifications" cfg4 in
    match literal_eval text with
    | Raise _ => (Raise (MS2RescoreGUIError ms2pip_msg), <[config := cfg5]> h)
    | Ok modifications =>
        (Ok {| general := config;
               maxquant_to_rescore :=
                 <["fixed_modifications" := m2]>
                   (<["modification_mapping" := m1]> ∅);
               ms2pip :=
                 <["modifications" := modifications]>
                   (<["frag_error" := frag_error]> (<["model" := model]> ∅)) |},
         <[config := cfg5]> h)
    end end end end end end end end.
Proof.
  intros Hh. unfold parse_settings, conf_items, for_each.
  unfold mbind, M_bind, mret, M_ret, try_except, lift, raise. cbn beta.
  rewrite maxquant_item_eq with (cfg := cfg) by exact Hh.
  cbn [general with_maxquant].
  destruct (cfg !! "modification_mapping") as [v1|]; [|done].
  destruct (parse_conf_item v1) as [m1|]; [|done].
  rewrite maxquant_item_eq with (cfg := delete "modification_mapping" cfg)
    by apply lookup_insert_eq.
  cbn [general with_maxquant maxquant_to_rescore ms2pip].
  rewrite lookup_delete_ne by done. rewrite insert_insert_eq.
  destruct (cfg !! "fixed_modifications") as [v2|]; [|done].
  destruct (parse_conf_item v2) as [m2|]; [|done].
  cbn [general with_maxquant maxquant_to_rescore ms2pip].
  rewrite dict_pop_insert, !lookup_delete_ne by done.
  destruct (cfg !! "ms2pip_model") as [model|]; [|done].
  rewrite dict_pop_insert, !lookup_delete_ne by done.
  destruct (cfg !! "ms2pip_frag_error") as [frag_error|]; [|done].
  rewrite dict_pop_insert, !lookup_delete_ne by done.
  destruct (cfg !! "ms2pip_modifications") as [text|]; [|done].
  by destruct (literal_eval text).
Qed.

(** A successful run went through every stage. *)
Lemma parse_settings_Ok_inv config h cfg r h' :
  h !! config = Some cfg →
  parse_settings literal_eval config h = (Ok r, h') →
  ∃ v1 m1 v2 m2 model frag_error text modifications,
    cfg !! "modification_mapping" = Some v1 ∧ parse_conf_item v1 = Ok m1 ∧
    cfg !! "fixed_modifications" = Some v2 ∧ parse_conf_item v2 = Ok m2 ∧
    cfg !! "ms2pip_model" = Some model ∧
    cfg !! "ms2pip_frag_error" = Some frag_error ∧
    cfg !! "ms2pip_modifications" = Some text ∧
    literal_eval text = Ok modifications ∧
    r = {| general := config;
           maxquant_to_rescore :=
             <["fixed_modifications" := m2]>
               (<["modification_mapping" := m1]> ∅);
           ms2pip :=
             <["modifications" := modifications]>
               (<["frag_error" := frag_error]> (<["model" := model]> ∅)) |} ∧
    h' = <[config := foldr delete cfg (reverse relocated_keys)]> h.
Proof.
  intros Hh. rewrite (parse_settings_eq _ _ _ Hh). cbn zeta.
  destruct (cfg !! "modification_mapping") as [v1|]; [|done].
  destruct (parse_conf_item v1) as [m1|] eqn:Hm1; [|done].
  destruct (cfg !! "fixed_modifications") as [v2|]; [|done].
  destruct (parse_conf_item v2) as [m2|] eqn:Hm2; [|done].
  destruct (cfg !! "ms2pip_model") as [model|]; [|done].
  destruct (cfg !! "ms2pip_frag_error") as [frag_error|]; [|done].
  destruct (cfg !! "ms2pip_modifications") as [text|]; [|done].
  destruct (literal_eval text) as [modifications|] eqn:Hlit; [|done].
  intros [= <- <-]. by eexists v1, m1, v2, m2, model, frag_error, text, modifications.
Qed.

(** When every stage succeeds, so does the run. *)
Lemma parse_settings_Ok_intro config h cfg v1 m1 v2 m2 model frag_error text
    modifications :
  h !! config = Some cfg →
  cfg !! "modification_mapping" = Some v1 → parse_conf_item v1 = Ok m1 →
  cfg !! "fixed_modifications" = Some v2 → parse_conf_item v2 = Ok m2 →
  cfg !! "ms2pip_model" = Some model →
  cfg !! "ms2pip_frag_error" = Some frag_error →
  cfg !! "ms2pip_modifications" = Some text →
  literal_eval text = Ok modifications →
  parse_settings literal_eval config h =
    (Ok {| general := config;
           maxquant_to_rescore :=
             <["fixed_modifications" := m2]>
               (<["modification_mapping" := m1]> ∅);
           ms2pip :=
             <["modifications" := modifications]>
               (<["frag_error" := frag_error]> (<["model" := model]> ∅)) |},
     <[config := foldr delete cfg (reverse relocated_keys)]> h).
Proof.
  intros Hh H1 Hm1 H2 Hm2 H3 H4 H5 Hlit.
  rewrite (parse_settings_eq _ _ _ Hh). cbn zeta.
  by rewrite H1, Hm1, H2, Hm2, H3, H4, H5, Hlit.
Qed.

Lemma maxquant_ok_inv cfg :
  maxquant_ok cfg →
  ∃ v1 m1 v2 m2,
    cfg !! "modification_mapping" = Some v1 ∧ parse_conf_item v1 = Ok m1 ∧
    cfg !! "fixed_modifications" = Some v2 ∧ parse_conf_item v2 = Ok m2.
Proof.
  intros Hok.
  destruct (Hok "modification_mapping") as (v1 & m1 & ? & ?); [by left|].
  destruct (Hok "fixed_modifications") as (v2 & m2 & ? & ?); [by right; left|].
  by exists v1, m1, v2, m2.
Qed.

(** A malformed MaxQuant text stops the run with the MaxQuant error. *)
Lemma parse_settings_malformed config h cfg f v :
  h !! config = Some cfg →
  is_Some (cfg !! "modification_mapping") →
  f ∈ conf_items → cfg !! f = Some v → malformed_text v →
  ∃ h', parse_settings literal_eval config h
        = (Raise (MS2RescoreGUIError maxquant_msg), h').
Proof.
  intros Hh [v1 H1] Hf Hv Hbad.
  rewrite (parse_settings_eq _ _ _ Hh), H1. cbn zeta.
  unfold conf_items in Hf.
  apply elem_of_cons in Hf as [->|Hf];
    [|apply list_elem_of_singleton in Hf as ->].
  - simplify_eq. rewrite (parse_conf_item_malformed _ Hbad). by eexists.
  - destruct (parse_conf_item v1) as [m1|]; [|by eexists].
    rewrite Hv, (parse_conf_item_malformed _ Hbad). by eexists.
Qed.

(** If the field [f] parses and every other stage passes, the run
    succeeds and stores the parsed field under [f]. *)
Lemma parse_settings_field_ok config h cfg f v m :
  h !! config = Some cfg → f ∈ conf_items →
  cfg !! f = Some v → parse_conf_item v = Ok m →
  rest_ok literal_eval cfg f →
  ∃ r h', parse_settings literal_eval config h = (Ok r, h') ∧
          maxquant_to_rescore r !! f = Some m.
Proof.
  intros Hh Hf Hv Hm (Hothers & [[model Hmodel] [frag Hfrag]] & text & lit & Htext & Hlit).
  unfold conf_items in Hf, Hothers.
  apply elem_of_cons in Hf as [->|Hf];
    [|apply list_elem_of_singleton in Hf as ->].
  - destruct (Hothers "fixed_modifications") as (v2 & m2 & H2 & Hm2);
      [by right; left|done|].
    eexists _, _. split.
    + by eapply parse_settings_Ok_intro.
    + cbn. by rewrite lookup_insert_ne, lookup_insert_eq.
  - destruct (Hothers "modification_mapping") as (v1 & m1 & H1 & Hm1);
      [by left|done|].
    eexists _, _. split.
    + by eapply parse_settings_Ok_intro.
    + cbn. by rewrite lookup_insert_eq.
Qed.

(** What a successful run stores under a MaxQuant field. *)
Lemma parse_settings_field_inv config h cfg f v r h' :
  h !! config = Some cfg → f ∈ conf_items → cfg !! f = Some v →
  parse_settings literal_eval config h = (Ok r, h') →
  ∃ m, parse_conf_item v = Ok m ∧ maxquant_to_rescore r !! f = Some m.
Proof.
  intros Hh Hf Hv Hrun.
  destruct (parse_settings_Ok_inv _ _ _ _ _ Hh Hrun)
    as (v1 & m1 & v2 & m2 & ? & ? & ? & ? & H1 & Hm1 & H2 & Hm2 & _ & _ & _ & _ & -> & _).
  unfold conf_items in Hf.
  apply elem_of_cons in Hf as [->|Hf];
    [|apply list_elem_of_singleton in Hf as ->]; simplify_eq; cbn.
  - exists m1. by rewrite lookup_insert_ne, lookup_insert_eq.
  - exists m2. by rewrite lookup_insert_eq.
Qed.

(** The only exceptions that leave [parse_settings]: a [KeyError] of a
    key popped outside the [try] blocks, or the dedicated error with one
    of its two messages. *)
Lemma parse_settings_raises config h e :
  (parse_settings literal_eval config h).1 = Raise e →
  (∃ k, k ∈ unguarded_keys ∧ e = KeyError k) ∨
  e = MS2RescoreGUIError maxquant_msg ∨ e = MS2RescoreGUIError ms2pip_msg.
Proof.
  assert (∀ k, k ∈ unguarded_keys →
    (∃ k', k' ∈ unguarded_keys ∧ KeyError k = KeyError k') ∨
    KeyError k = MS2RescoreGUIError maxquant_msg ∨
    KeyError k = MS2RescoreGUIError ms2pip_msg) as Hkey.
  { intros k Hk. left. by exists k. }
  destruct (h !! config) as [cfg|] eqn:Hh.
  - rewrite (parse_settings_eq _ _ _ Hh). cbn zeta.
    repeat case_match; cbn; intros [= <-]; auto;
      apply Hkey; unfold unguarded_keys, conf_items; cbn;
      repeat ((by left) || right).
  - unfold parse_settings, conf_items, for_each, maxquant_item, dict_pop.
    unfold mbind, M_bind. cbn [general].
    rewrite Hh. cbn. intros [= <-]. apply Hkey. by left.
Qed.

(** The MS²PIP error is raised exactly when the run reaches the last
    [try] block and the pop or the evaluation in it fails. *)
Lemma ms2pip_error_iff config h cfg :
  h !! config = Some cfg →
  (parse_settings literal_eval config h).1
    = Raise (MS2RescoreGUIError ms2pip_msg) ↔
  maxquant_ok cfg ∧ ms2pip_scalars_present cfg ∧
  ∀ text, cfg !! "ms2pip_modifications" = Some text →
          ∃ e, literal_eval text = Raise e.
Proof.
  intros Hh. rewrite (parse_settings_eq _ _ _ Hh). cbn zeta. split.
  - destruct (cfg !! "modification_mapping") as [v1|] eqn:H1; [|done].
    destruct (parse_conf_item v1) as [m1|] eqn:Hm1; [|done].
    destruct (cfg !! "fixed_modifications") as [v2|] eqn:H2; [|done].
    destruct (parse_conf_item v2) as [m2|] eqn:Hm2; [|done].
    destruct (cfg !! "ms2pip_model") as [model|] eqn:H3; [|done].
    destruct (cfg !! "ms2pip_frag_error") as [frag|] eqn:H4; [|done].
    intros Hrun. split; [by eapply maxquant_ok_intro|].
    split; [by split; eexists|].
    intros text Htext. rewrite Htext in Hrun.
    destruct (literal_eval text) as [lit|e]; [done|by exists e].
  - intros (Hmq & [[model H3] [frag H4]] & Htext).
    destruct (maxquant_ok_inv _ Hmq) as (v1 & m1 & v2 & m2 & H1 & Hm1 & H2 & Hm2).
    rewrite H1, Hm1, H2, Hm2, H3, H4.
    destruct (cfg !! "ms2pip_modifications") as [text|]; [|done].
    by destruct (Htext text eq_refl) as [e ->].
Qed.

(** A run that fails although the MS²PIP text evaluates failed before
    the last [try] block. *)
Lemma parse_settings_early_failure config h cfg text lit e :
  h !! config = Some cfg →
  cfg !! "ms2pip_modifications" = Some text → literal_eval text = Ok lit →
  (parse_settings literal_eval config h).1 = Raise e →
  (∃ k, k ∈ unguarded_keys ∧ cfg !! k = None ∧ e = KeyError k) ∨
  (e = MS2RescoreGUIError maxquant_msg ∧ ¬ maxquant_ok cfg).
Proof.
  intros Hh Htext Hlit. rewrite (parse_settings_eq _ _ _ Hh). cbn zeta.
  rewrite Htext, Hlit.
  assert (∀ f v e', cfg !! f = Some v → parse_conf_item v = Raise e' →
                    f ∈ conf_items → ¬ maxquant_ok cfg) as Hbad.
  { intros f v e' Hv He' Hf Hmq. destruct (Hmq f Hf) as (v' & m & Hv' & Hm).
    congruence. }
  destruct (cfg !! "modification_mapping") as [v1|] eqn:H1.
  2: { intros [= <-]. left. exists "modification_mapping".
       split; [by left|done]. }
  destruct (parse_conf_item v1) as [m1|] eqn:Hm1.
  2: { intros [= <-]. right. split; [done|].
       eapply Hbad; [exact H1|exact Hm1|by left]. }
  destruct (cfg !! "fixed_modifications") as [v2|] eqn:H2.
  2: { intros [= <-]. left. exists "fixed_modifications".
       split; [by right; left|done]. }
  destruct (parse_conf_item v2) as [m2|] eqn:Hm2.
  2: { intros [= <-]. right. split; [done|].
       eapply Hbad; [exact H2|exact Hm2|by right; left]. }
  destruct (cfg !! "ms2pip_model") as [model|] eqn:H3.
  2: { intros [= <-]. left. exists "ms2pip_model".
       split; [by right; right; left|done]. }
  destruct (cfg !! "ms2pip_frag_error") as [frag|] eqn:H4; [done|].
  intros [= <-]. left. exists "ms2pip_frag_error".
  split; [by right; right; right; left|done].
Qed.

(** An input that lacks a key popped outside the [try] blocks never
    passes: the run ends with the KeyError of a missing key, unless a
    malformed MaxQuant text popped earlier ends it first. *)
Lemma parse_settings_missing_key config h cfg k :
  h !! config = Some cfg → k ∈ unguarded_keys → cfg !! k = None →
  (∃ k', k' ∈ unguarded_keys ∧ cfg !! k' = None ∧
         (parse_settings literal_eval config h).1 = Raise (KeyError k')) ∨
  ((parse_settings literal_eval config h).1
     = Raise (MS2RescoreGUIError maxquant_msg) ∧
   ∃ f v e, f ∈ conf_items ∧ cfg !! f = Some v ∧ parse_conf_item v = Raise e).
Proof.
  intros Hh Hk Hnone. rewrite (parse_settings_eq _ _ _ Hh). cbn zeta.
  destruct (cfg !! "modification_mapping") as [v1|] eqn:H1.
  2: { left. exists "modification_mapping". split; [by left|done]. }
  destruct (parse_conf_item v1) as [m1|e1] eqn:Hm1.
  2: { right. split; [done|]. exists "modification_mapping", v1, e1.
       split; [by left|done]. }
  destruct (cfg !! "fixed_modifications") as [v2|] eqn:H2.
  2: { left. exists "fixed_modifications". split; [by right; left|done]. }
  destruct (parse_conf_item v2) as [m2|e2] eqn:Hm2.
  2: { right. split; [done|]. exists "fixed_modifications", v2, e2.
       split; [by right; left|done]. }
  destruct (cfg !! "ms2pip_model") as [model|] eqn:H3.
  2: { left. exists "ms2pip_model". split; [by right; right; left|done]. }
  destruct (cfg !! "ms2pip_frag_error") as [frag|] eqn:H4.
  2: { left. exists "ms2pip_frag_error".
       split; [by right; right; right; left|done]. }
  exfalso. unfold unguarded_keys, conf_items in Hk. cbn in Hk.
  repeat (apply elem_of_cons in Hk as [->|Hk]; [congruence|]).
  by apply elem_of_nil in Hk.
Qed.

(** The MaxQuant error is raised only for a MaxQuant field whose [try]
    body raised. *)
Lemma maxquant_error_cause config h cfg :
  h !! config = Some cfg →
  (parse_settings literal_eval config h).1
    = Raise (MS2RescoreGUIError maxquant_msg) →
  ∃ g v e, g ∈ conf_items ∧ cfg !! g = Some v ∧ parse_conf_item v = Raise e.
Proof.
  intros Hh. rewrite (parse_settings_eq _ _ _ Hh). cbn zeta.
  destruct (cfg !! "modification_mapping") as [v1|] eqn:H1; [|done].
  destruct (parse_conf_item v1) as [m1|e1] eqn:Hm1.
  2: { intros _. exists "modification_mapping", v1, e1. split; [by left|done]. }
  destruct (cfg !! "fixed_modifications") as [v2|] eqn:H2; [|done].
  destruct (parse_conf_item v2) as [m2|e2] eqn:Hm2.
  2: { intros _. exists "fixed_modifications", v2, e2.
       split; [by right; left|done]. }
  destruct (cfg !! "ms2pip_model") as [model|]; [|done].
  destruct (cfg !! "ms2pip_frag_error") as [frag|]; [|done].
  destruct (cfg !! "ms2pip_modifications") as [text|]; [|done].
  by destruct (literal_eval text).
Qed.

(** C1: on the input of the end-to-end example (fixed_modifications
    "C Carbamidomethyl", modification_mapping "ox Oxidation\nac Acetyl",
    ms2pip_model "HCD2021", ms2pip_frag_error 0.02, ms2pip_modifications
    "[]", the literal "[]" denoting the empty list), [parse_settings]
    returns a configuration whose maxquant_to_rescore section is
    {"fixed_modifications": {"C": "Carbamidomethyl"},
     "modification_mapping": {"ox": "Oxidation", "ac": "Acetyl"}}
    and whose ms2pip section is
    {"model": "HCD2021", "frag_error": 0.02, "modifications": []}. *)
Theorem C1_end_to_end_example config h cfg :
  h !! config = Some cfg →
  cfg !! "fixed_modifications" = Some (PyStr "C Carbamidomethyl") →
  cfg !! "modification_mapping"
    = Some (PyStr (join newline ["ox Oxidation"; "ac Acetyl"])) →
  cfg !! "ms2pip_model" = Some (PyStr "HCD2021") →
  cfg !! "ms2pip_frag_error" = Some (PyFloat float_0_02) →
  cfg !! "ms2pip_modifications" = Some (PyStr "[]") →
  literal_eval (PyStr "[]") = Ok (PyList []) →
  ∃ r h',
    parse_settings literal_eval config h = (Ok r, h') ∧
    maxquant_to_rescore r
      = {[ "fixed_modifications" := {[ "C" := "Carbamidomethyl" ]};
           "modification_mapping" :=
             {[ "ox" := "Oxidation"; "ac" := "Acetyl" ]} ]} ∧
    ms2pip r
      = {[ "model" := PyStr "HCD2021";
           "frag_error" := PyFloat float_0_02;
           "modifications" := PyList [] ]}.
Proof.
  intros Hh Hfixed Hmapping Hmodel Hfrag Hmods Hlit.
  rewrite (parse_settings_eq _ _ _ Hh).
  rewrite Hmapping, Hfixed, Hmodel, Hfrag, Hmods. cbn zeta.
  rewrite parse_example_mapping, parse_example_fixed, Hlit.
  eexists _, _. split; [reflexivity|].
  cbn [maxquant_to_rescore ms2pip]. split; apply map_eq; intros k;
    rewrite ?lookup_insert, ?lookup_singleton, ?lookup_empty;
    repeat case_decide; by simplify_eq.
Qed.

(** C2 (amended): for every input in which the modification_mapping or
    the fixed_modifications text is non-empty and has a line that does not
    hold exactly one space, [parse_settings] returns no configuration, so
    no such line is dropped: it raises MS2RescoreGUIError, with the one
    MaxQuant message whichever of the two fields is malformed (when
    modification_mapping, which is popped first, is absent, the KeyError
    of that pop comes first).  The lines concerned are told by their
    spaces, as [split] cuts them, not by their non-empty tokens. *)
Theorem C2_malformed_line_raises config h cfg f v :
  h !! config = Some cfg →
  f ∈ conf_items → cfg !! f = Some v → malformed_text v →
  (is_Some (cfg !! "modification_mapping") →
   (parse_settings literal_eval config h).1
   = Raise (MS2RescoreGUIError maxquant_msg)) ∧
  (cfg !! "modification_mapping" = None →
   (parse_settings literal_eval config h).1
   = Raise (KeyError "modification_mapping")) ∧
  (∀ r, (parse_settings literal_eval config h).1 ≠ Ok r).
Proof.
  intros Hh Hf Hv Hbad.
  assert (is_Some (cfg !! "modification_mapping") →
          (parse_settings literal_eval config h).1
          = Raise (MS2RescoreGUIError maxquant_msg)) as Hpresent.
  { intros H1.
    by destruct (parse_settings_malformed _ _ _ _ _ Hh H1 Hf Hv Hbad) as [h' ->]. }
  assert (cfg !! "modification_mapping" = None →
          (parse_settings literal_eval config h).1
          = Raise (KeyError "modification_mapping")) as Habsent.
  { intros H1. by rewrite (parse_settings_eq _ _ _ Hh), H1. }
  split; [done|]. split; [done|]. intros r Hr.
  destruct (cfg !! "modification_mapping") as [v1|] eqn:H1.
  - rewrite Hpresent in Hr; [done|by eexists].
  - by rewrite Habsent in Hr.
Qed.

(** C3 (amended): for every non-empty modification_mapping or
    fixed_modifications text, [parse_settings] splits the text on
    newlines and splits each line on every space.  A line that holds
    exactly one space yields its (short-label, full-name) pair, and on
    success every line is such a pair and its label is a key of the
    resulting mapping.  A line whose full-name part itself contains
    spaces (such as "C Carbamido methyl") yields more than two pieces and
    is not collected: the run returns no configuration and raises
    MS2RescoreGUIError (when modification_mapping, which is popped first,
    is present). *)
Theorem C3_split_on_every_space config h cfg f lines :
  h !! config = Some cfg →
  f ∈ conf_items → cfg !! f = Some (PyStr (join newline lines)) →
  text_block lines →
  parse_conf_item (PyStr (join newline lines))
    = dict_from_rows (split space <$> lines) ∧
  (∀ label name,
     count_char space label = 0 → count_char space name = 0 →
     split space (label +:+ String space name) = [label; name]) ∧
  (∀ label name,
     (label +:+ String space name) ∈ lines → count_char space name ≠ 0 →
     2 < length (split space (label +:+ String space name)) ∧
     (∀ r, (parse_settings literal_eval config h).1 ≠ Ok r) ∧
     (is_Some (cfg !! "modification_mapping") →
      (parse_settings literal_eval config h).1
      = Raise (MS2RescoreGUIError maxquant_msg))) ∧
  (∀ r h',
     parse_settings literal_eval config h = (Ok r, h') →
     ∃ m, maxquant_to_rescore r !! f = Some m ∧
          ∀ line, line ∈ lines →
            ∃ label name,
              split space line = [label; name] ∧
              line = label +:+ String space name ∧
              is_Some (m !! label)).
Proof.
  intros Hh Hf Hv Hblock. split; [|split; [|split]].
  - by apply parse_conf_item_text.
  - intros label name Hl Hn.
    by apply (split_line_of_pair (label, name)).
  - intros label name Hin Hn. split.
    { rewrite length_split, count_char_app. simpl. lia. }
    assert (malformed_text (PyStr (join newline lines))) as Hbad.
    { exists lines, (label +:+ String space name). repeat split; try done;
        try apply Hblock. rewrite count_char_app. simpl. lia. }
    assert (is_Some (cfg !! "modification_mapping") →
            (parse_settings literal_eval config h).1
            = Raise (MS2RescoreGUIError maxquant_msg)) as Hpresent.
    { intros H1.
      by destruct (parse_settings_malformed _ _ _ _ _ Hh H1 Hf Hv Hbad)
        as [h' ->]. }
    split; [|done]. intros r Hr.
    destruct (cfg !! "modification_mapping") as [v1|] eqn:H1.
    + rewrite Hpresent in Hr; [done|by eexists].
    + by rewrite (parse_settings_eq _ _ _ Hh), H1 in Hr.
  - intros r h' Hrun.
    destruct (parse_settings_field_inv _ _ _ _ _ _ _ Hh Hf Hv Hrun)
      as (m & Hm & Hr).
    exists m. split; [done|]. intros line Hline.
    rewrite parse_conf_item_text in Hm by done.
    apply dict_from_rows_Ok_inv in Hm as (pairs & Hrows & ->).
    assert (split space line ∈ row_of_pair <$> pairs) as Hrow.
    { rewrite <- Hrows. by apply list_elem_of_fmap_2. }
    apply list_elem_of_fmap in Hrow as ([label name] & Hsplit & Hp).
    exists label, name. split; [done|]. split.
    + rewrite <- (join_split space line), Hsplit. done.
    + apply elem_of_dom. rewrite foldl_insert_dom.
      apply elem_of_list_to_set.
      by apply (list_elem_of_fmap_2 fst) in Hp.
Qed.


(** C5: on every input on which [parse_settings] succeeds, the general
    section holds none of the five relocated keys; the two MaxQuant
    fields reappear, parsed, under maxquant_to_rescore, the three MS²PIP
    fields under ms2pip (model, frag_error, modifications), and every
    other input key is still in general with its value. *)
Theorem C5_relocated_keys config h cfg r h' :
  h !! config = Some cfg →
  parse_settings literal_eval config h = (Ok r, h') →
  ∃ g,
    h' !! general r = Some g ∧
    (∀ k, k ∈ relocated_keys → g !! k = None) ∧
    (∀ k, k ∉ relocated_keys → g !! k = cfg !! k) ∧
    dom (maxquant_to_rescore r)
      = {[ "modification_mapping"; "fixed_modifications" ]} ∧
    (∀ f, f ∈ conf_items →
       ∃ v m, cfg !! f = Some v ∧ parse_conf_item v = Ok m ∧
              maxquant_to_rescore r !! f = Some m) ∧
    dom (ms2pip r) = {[ "model"; "frag_error"; "modifications" ]} ∧
    ms2pip r !! "model" = cfg !! "ms2pip_model" ∧
    ms2pip r !! "frag_error" = cfg !! "ms2pip_frag_error" ∧
    ∃ text lit,
      cfg !! "ms2pip_modifications" = Some text ∧
      literal_eval text = Ok lit ∧
      ms2pip r !! "modifications" = Some lit.
Proof.
  intros Hh Hrun.
  destruct (parse_settings_Ok_inv _ _ _ _ _ Hh Hrun)
    as (v1 & m1 & v2 & m2 & model & frag & text & lit
        & H1 & Hm1 & H2 & Hm2 & H3 & H4 & H5 & Hlit & -> & ->).
  cbn [general maxquant_to_rescore ms2pip].
  exists (foldr delete cfg (popped 5)).
  destruct (popped_frame cfg 5) as [_ Hframe].
  split; [apply lookup_insert_eq|]. split.
  { intros k Hk. apply lookup_foldr_delete. unfold popped.
    by rewrite elem_of_reverse. }
  split; [done|]. split.
  { rewrite !dom_insert_L, dom_empty_L, (right_id_L ∅ (∪)).
    apply (comm_L (∪)). }
  split.
  { intros f Hf. unfold conf_items in Hf.
    apply elem_of_cons in Hf as [->|Hf];
      [|apply list_elem_of_singleton in Hf as ->].
    - exists v1, m1. by rewrite lookup_insert_ne, lookup_insert_eq.
    - exists v2, m2. by rewrite lookup_insert_eq. }
  split.
  { rewrite !dom_insert_L, dom_empty_L, (right_id_L ∅ (∪)).
    apply set_eq. intros k. rewrite !elem_of_union, !elem_of_singleton. tauto. }
  split; [by rewrite !lookup_insert_ne, lookup_insert_eq by done|].
  split; [by rewrite lookup_insert_ne, lookup_insert_eq by done|].
  exists text, lit. by rewrite lookup_insert_eq.
Qed.

(** C6: when the modification_mapping or fixed_modifications text is
    empty, the loop iteration of that field does not raise and stores the
    empty mapping: a successful run maps the field to the empty mapping
    in maxquant_to_rescore, the run succeeds whenever every other stage
    passes, and a run that ends with the MaxQuant error does so for the
    other field. *)
Theorem C6_empty_text_gives_empty_mapping config h cfg f :
  h !! config = Some cfg → f ∈ conf_items → cfg !! f = Some (PyStr "") →
  parse_conf_item (PyStr "") = Ok ∅ ∧
  (∀ pc h0 cfg0,
     h0 !! general pc = Some cfg0 → cfg0 !! f = Some (PyStr "") →
     maxquant_item f pc h0
     = (Ok (with_maxquant pc f ∅), <[general pc := delete f cfg0]> h0)) ∧
  (∀ r h',
     parse_settings literal_eval config h = (Ok r, h') →
     maxquant_to_rescore r !! f = Some ∅) ∧
  (rest_ok literal_eval cfg f →
   ∃ r h', parse_settings literal_eval config h = (Ok r, h') ∧
           maxquant_to_rescore r !! f = Some ∅) ∧
  ((parse_settings literal_eval config h).1
     = Raise (MS2RescoreGUIError maxquant_msg) →
   ∃ g v e, g ∈ conf_items ∧ g ≠ f ∧ cfg !! g = Some v ∧
            parse_conf_item v = Raise e).
Proof.
  intros Hh Hf Hv. split; [done|]. split; [|split; [|split]].
  4: { intros Hrun.
       destruct (maxquant_error_cause _ _ _ Hh Hrun) as (g & v & e & Hg & Hgv & He).
       exists g, v, e. split; [done|]. split; [|done].
       intros ->. rewrite Hv in Hgv. by injection Hgv as <-. }
  - intros pc h0 cfg0 Hh0 Hv0.
    by rewrite (maxquant_item_eq _ _ _ _ Hh0), Hv0.
  - intros r h' Hrun.
    destruct (parse_settings_field_inv _ _ _ _ _ _ _ Hh Hf Hv Hrun)
      as (m & Hm & Hr).
    by injection Hm as <-.
  - intros Hrest. by eapply parse_settings_field_ok.
Qed.

(** C7: for every non-empty text whose lines each consist of exactly two
    space-separated tokens (each line holds exactly one space), the lines
    are the lines [label name] of a list of pairs, and the field parses to
    a mapping with one entry per distinct short label, in which every
    label is bound to the full name of its last occurrence; a successful
    run stores this mapping, and the run succeeds whenever every other
    stage passes. *)
Theorem C7_last_occurrence_wins config h cfg f lines :
  h !! config = Some cfg → f ∈ conf_items →
  text_block lines → Forall (λ line, count_char space line = 1) lines →
  cfg !! f = Some (PyStr (join newline lines)) →
  ∃ pairs m,
    lines = line_of_pair <$> pairs ∧
    Forall (λ p, token p.1 ∧ token p.2) pairs ∧
    parse_conf_item (PyStr (join newline lines)) = Ok m ∧
    dom m = list_to_set pairs.*1 ∧
    size m = length (remove_dups pairs.*1) ∧
    (∀ k v,
       m !! k = Some v ↔
       ∃ i, pairs !! i = Some (k, v) ∧
            ∀ j p, i < j → pairs !! j = Some p → p.1 ≠ k) ∧
    (∀ r h',
       parse_settings literal_eval config h = (Ok r, h') →
       maxquant_to_rescore r !! f = Some m) ∧
    (rest_ok literal_eval cfg f →
     ∃ r h', parse_settings literal_eval config h = (Ok r, h') ∧
             maxquant_to_rescore r !! f = Some m).
Proof.
  intros Hh Hf Hblock Hspace Hv.
  destruct (text_block_one_space_pairs lines Hblock Hspace)
    as (pairs & Hne & Htok & ->).
  pose proof (parse_conf_item_pairs pairs Hne Htok) as Hm.
  eexists pairs, _. split; [done|]. split; [done|]. split; [exact Hm|].
  split; [apply foldl_insert_dom|]. split; [apply foldl_insert_size|].
  split; [apply foldl_insert_last_wins|]. split.
  - intros r h' Hrun.
    destruct (parse_settings_field_inv _ _ _ _ _ _ _ Hh Hf Hv Hrun)
      as (m & Hm' & Hr).
    rewrite Hm in Hm'. by injection Hm' as <-.
  - intros Hrest. by eapply parse_settings_field_ok.
Qed.

(** C8 (amended): [parse_settings] raises MS2RescoreGUIError with the
    message of the MS²PIP modification field exactly when the run reaches
    the ms2pip_modifications block (both MaxQuant texts parse,
    ms2pip_model and ms2pip_frag_error are present) and the text does not
    evaluate as a literal; so, once the preceding stages have passed,
    exactly when the text does not evaluate (a text that does not
    evaluate behind a malformed MaxQuant text or a missing key is never
    looked at).  No exception of the literal evaluator ever leaves
    [parse_settings]: on any input the only exceptions are the dedicated
    error and the KeyError of an unguarded pop.  When the text evaluates,
    the value of the literal is what every successful run stores under
    ms2pip.modifications. *)
Theorem C8_ms2pip_modifications_error config h cfg text :
  h !! config = Some cfg →
  cfg !! "ms2pip_modifications" = Some text →
  ((parse_settings literal_eval config h).1
     = Raise (MS2RescoreGUIError ms2pip_msg)
   ↔ maxquant_ok cfg ∧ ms2pip_scalars_present cfg ∧
     ∃ e, literal_eval text = Raise e) ∧
  (maxquant_ok cfg → ms2pip_scalars_present cfg →
   ((parse_settings literal_eval config h).1
      = Raise (MS2RescoreGUIError ms2pip_msg)
    ↔ ∃ e, literal_eval text = Raise e) ∧
   (∀ e, (parse_settings literal_eval config h).1 = Raise e →
         e = MS2RescoreGUIError ms2pip_msg) ∧
   (∀ lit, literal_eval text = Ok lit →
      ∃ r h', parse_settings literal_eval config h = (Ok r, h') ∧
              ms2pip r !! "modifications" = Some lit)) ∧
  (∀ h0 config0 e,
     (parse_settings literal_eval config0 h0).1 = Raise e →
     (∃ k, k ∈ unguarded_keys ∧ e = KeyError k) ∨
     ∃ msg, e = MS2RescoreGUIError msg) ∧
  (∀ r h' lit,
     parse_settings literal_eval config h = (Ok r, h') →
     literal_eval text = Ok lit →
     ms2pip r !! "modifications" = Some lit) ∧
  String.prefix "Invalid MS²PIP modification configuration." ms2pip_msg = true ∧
  ms2pip_msg ≠ maxquant_msg.
Proof.
  intros Hh Htext.
  assert ((∀ text', cfg !! "ms2pip_modifications" = Some text' →
                    ∃ e, literal_eval text' = Raise e)
          ↔ ∃ e, literal_eval text = Raise e) as Hfail.
  { split; [by intros H; apply H|]. intros He text' Htext'. by simplify_eq. }
  split; [|split; [|split; [|split; [|split]]]].
  - by rewrite (ms2pip_error_iff _ _ _ Hh), Hfail.
  - intros Hmq Hsc. split; [|split].
    + rewrite (ms2pip_error_iff _ _ _ Hh), Hfail. tauto.
    + intros e He.
      destruct (literal_eval text) as [lit|e'] eqn:Hlit.
      * destruct (parse_settings_early_failure _ _ _ _ _ _ Hh Htext Hlit He)
          as [(k & Hk & Hnone & _)|[_ Hbad]]; [|done].
        destruct (maxquant_ok_inv _ Hmq) as (? & ? & ? & ? & ? & _ & ? & _).
        destruct Hsc as [[? ?] [? ?]].
        unfold unguarded_keys, conf_items in Hk. cbn in Hk.
        repeat (apply elem_of_cons in Hk as [->|Hk]; [congruence|]).
        by apply elem_of_nil in Hk.
      * assert ((parse_settings literal_eval config h).1
                = Raise (MS2RescoreGUIError ms2pip_msg)) as Hrun.
        { apply (ms2pip_error_iff _ _ _ Hh). split; [done|]. split; [done|].
          apply Hfail. by exists e'. }
        rewrite Hrun in He. by injection He as <-.
    + intros lit Hlit. destruct Hsc as [[model Hmodel] [frag Hfrag]].
      destruct (maxquant_ok_inv _ Hmq) as (v1 & m1 & v2 & m2 & H1 & Hm1 & H2 & Hm2).
      eexists _, _. split; [by eapply parse_settings_Ok_intro|].
      cbn. by rewrite lookup_insert_eq.
  - intros h0 config0 e He.
    destruct (parse_settings_raises _ _ _ He) as [?|[->| ->]]; eauto.
  - intros r h' lit Hrun Hlit.
    destruct (parse_settings_Ok_inv _ _ _ _ _ Hh Hrun)
      as (? & ? & ? & ? & ? & ? & text' & lit'
          & _ & _ & _ & _ & _ & _ & Htext' & Hlit' & -> & _).
    rewrite Htext in Htext'. injection Htext' as <-.
    rewrite Hlit in Hlit'. injection Hlit' as <-.
    cbn. by rewrite lookup_insert_eq.
  - reflexivity.
  - done.
Qed.

(** C9 (amended): an input that lacks modification_mapping,
    fixed_modifications, ms2pip_model or ms2pip_frag_error makes
    [parse_settings] raise a raw KeyError for a missing key, provided the
    MaxQuant texts that are present are well formed; otherwise it raises
    either that KeyError or the MaxQuant MS2RescoreGUIError of a
    malformed text.  A missing modification_mapping, popped first of all,
    always gives the KeyError.  An input that holds these four keys and
    lacks only ms2pip_modifications makes it raise MS2RescoreGUIError
    (with the MS²PIP message when the MaxQuant texts are well formed),
    since that pop alone sits inside the [try] block. *)
Theorem C9_missing_keys config h cfg :
  h !! config = Some cfg →
  ((∀ f v, f ∈ conf_items → cfg !! f = Some v →
           ∃ m, parse_conf_item v = Ok m) →
   (∃ k, k ∈ unguarded_keys ∧ cfg !! k = None) →
   ∃ k, k ∈ unguarded_keys ∧ cfg !! k = None ∧
        (parse_settings literal_eval config h).1 = Raise (KeyError k)) ∧
  (cfg !! "modification_mapping" = None →
   (parse_settings literal_eval config h).1
   = Raise (KeyError "modification_mapping")) ∧
  ((∃ k, k ∈ unguarded_keys ∧ cfg !! k = None) →
   (∃ k, k ∈ unguarded_keys ∧ cfg !! k = None ∧
         (parse_settings literal_eval config h).1 = Raise (KeyError k)) ∨
   ((parse_settings literal_eval config h).1
      = Raise (MS2RescoreGUIError maxquant_msg) ∧
    ∃ f v e, f ∈ conf_items ∧ cfg !! f = Some v ∧
             parse_conf_item v = Raise e)) ∧
  ((∀ k, k ∈ unguarded_keys → is_Some (cfg !! k)) →
   cfg !! "ms2pip_modifications" = None →
   (∃ msg, (parse_settings literal_eval config h).1
           = Raise (MS2RescoreGUIError msg)) ∧
   (maxquant_ok cfg →
    (parse_settings literal_eval config h).1
    = Raise (MS2RescoreGUIError ms2pip_msg))).
Proof.
  intros Hh.
  assert ((∃ k, k ∈ unguarded_keys ∧ cfg !! k = None) →
    (∃ k, k ∈ unguarded_keys ∧ cfg !! k = None ∧
          (parse_settings literal_eval config h).1 = Raise (KeyError k)) ∨
    ((parse_settings literal_eval config h).1
       = Raise (MS2RescoreGUIError maxquant_msg) ∧
     ∃ f v e, f ∈ conf_items ∧ cfg !! f = Some v ∧
              parse_conf_item v = Raise e)) as Hmissing.
  { intros (k & Hk & Hnone). by eapply parse_settings_missing_key. }
  revert Hmissing.
  rewrite (parse_settings_eq _ _ _ Hh). cbn zeta. intros Hmissing.
  assert (∀ k, k ∈ relocated_keys → k ∈ unguarded_keys ∨ k = "ms2pip_modifications")
    as Hkeys.
  { intros k Hk. unfold relocated_keys in Hk.
    apply elem_of_app in Hk as [?|Hk]; [by left|right].
    by apply list_elem_of_singleton in Hk. }
  split; [|split; [|split; [exact Hmissing|]]]; clear Hmissing.
  - intros Hwf (k0 & Hk0 & Hnone).
    destruct (cfg !! "modification_mapping") as [v1|] eqn:H1.
    2: { exists "modification_mapping". repeat split; [|done]. by left. }
    destruct (Hwf "modification_mapping" v1) as [m1 ->]; [by left|done|].
    destruct (cfg !! "fixed_modifications") as [v2|] eqn:H2.
    2: { exists "fixed_modifications". repeat split; [|done]. by right; left. }
    destruct (Hwf "fixed_modifications" v2) as [m2 ->]; [by right; left|done|].
    destruct (cfg !! "ms2pip_model") as [model|] eqn:H3.
    2: { exists "ms2pip_model". repeat split; [|done]. by right; right; left. }
    destruct (cfg !! "ms2pip_frag_error") as [frag|] eqn:H4.
    2: { exists "ms2pip_frag_error". repeat split; [|done].
         by right; right; right; left. }
    exfalso. unfold unguarded_keys, conf_items in Hk0. cbn in Hk0.
    repeat (apply elem_of_cons in Hk0 as [->|Hk0]; [congruence|]).
    by apply elem_of_nil in Hk0.
  - by intros ->.
  - intros Hall Hmods.
    destruct (Hall "modification_mapping") as [v1 H1]; [by left|].
    destruct (Hall "fixed_modifications") as [v2 H2]; [by right; left|].
    destruct (Hall "ms2pip_model") as [model H3]; [by right; right; left|].
    destruct (Hall "ms2pip_frag_error") as [frag H4];
      [by right; right; right; left|].
    rewrite H1, H2, H3, H4, Hmods. split.
    + destruct (parse_conf_item v1); [|by eexists].
      destruct (parse_conf_item v2); by eexists.
    + intros Hmq.
      destruct (maxquant_ok_inv _ Hmq) as (? & m1 & ? & m2 & ? & Hm1 & ? & Hm2).
      simplify_eq. by rewrite Hm1, Hm2.
Qed.

(** C10 (amended): whatever value the ms2pip_modifications text
    evaluates to (a list of records, but just as well a bare number or a
    string), [parse_settings] never rejects it for its shape: once the
    preceding stages have passed (both MaxQuant texts parse, ms2pip_model
    and ms2pip_frag_error are present) the run succeeds, every successful
    run stores that value unchanged under ms2pip.modifications, and a run
    that fails failed at an earlier stage (the KeyError of a missing key,
    or the MaxQuant error of a malformed text). *)
Theorem C10_any_literal_is_stored config h cfg text lit :
  h !! config = Some cfg →
  cfg !! "ms2pip_modifications" = Some text →
  literal_eval text = Ok lit →
  (maxquant_ok cfg → ms2pip_scalars_present cfg →
   ∃ r h', parse_settings literal_eval config h = (Ok r, h') ∧
           ms2pip r !! "modifications" = Some lit) ∧
  (∀ r h',
     parse_settings literal_eval config h = (Ok r, h') →
     ms2pip r !! "modifications" = Some lit) ∧
  (∀ e, (parse_settings literal_eval config h).1 = Raise e →
     (∃ k, k ∈ unguarded_keys ∧ cfg !! k = None ∧ e = KeyError k) ∨
     (e = MS2RescoreGUIError maxquant_msg ∧ ¬ maxquant_ok cfg)).
Proof.
  intros Hh Htext Hlit. split; [|split].
  - intros Hmq [[model Hmodel] [frag Hfrag]].
    destruct (maxquant_ok_inv _ Hmq) as (v1 & m1 & v2 & m2 & H1 & Hm1 & H2 & Hm2).
    eexists _, _. split.
    + by eapply parse_settings_Ok_intro.
    + cbn. by rewrite lookup_insert_eq.
  - intros r h' Hrun.
    destruct (parse_settings_Ok_inv _ _ _ _ _ Hh Hrun)
      as (? & ? & ? & ? & ? & ? & text' & lit'
          & _ & _ & _ & _ & _ & _ & Htext' & Hlit' & -> & _).
    rewrite Htext in Htext'. injection Htext' as <-.
    rewrite Hlit in Hlit'. injection Hlit' as <-.
    cbn. by rewrite lookup_insert_eq.
  - intros e He. by eapply parse_settings_early_failure.
Qed.

End ParserFacts.

(** ** The claims on concrete inputs *)

(** C1 on a store whose only object is [example_config]. *)
Lemma C1_end_to_end_example_witness :
  ∃ r h',
    parse_settings Fragment.literal_eval 1%positive
      {[1%positive := example_config]} = (Ok r, h') ∧
    maxquant_to_rescore r
      = {[ "fixed_modifications" := {[ "C" := "Carbamidomethyl" ]};
           "modification_mapping" :=
             {[ "ox" := "Oxidation"; "ac" := "Acetyl" ]} ]} ∧
    ms2pip r
      = {[ "model" := PyStr "HCD2021";
           "frag_error" := PyFloat float_0_02;
           "modifications" := PyList [] ]}.
Proof.
  apply (C1_end_to_end_example Fragment.literal_eval 1%positive
           {[1%positive := example_config]} example_config);
    reflexivity.
Defined.

(** C2 on an input whose fixed_modifications is the single token
    "Carbamidomethyl". *)
Lemma C2_malformed_line_raises_witness :
  (run_on bad_fixed_config).1 = Raise (MS2RescoreGUIError maxquant_msg).
Proof.
  destruct (C2_malformed_line_raises Fragment.literal_eval 1%positive
              {[1%positive := bad_fixed_config]} bad_fixed_config
              "fixed_modifications" (PyStr "Carbamidomethyl"))
    as (Hraise & _).
  - reflexivity.
  - right. left.
  - reflexivity.
  - exists ["Carbamidomethyl"], "Carbamidomethyl".
    split; [reflexivity|]. split.
    + split; [discriminate | repeat constructor].
    + split; [constructor | vm_compute; lia].
  - apply Hraise. eexists. reflexivity.
Defined.

(** C2, as stated, fails: a run whose modification_mapping alone is
    malformed and a run whose fixed_modifications alone is malformed
    raise the very same error, so the error cannot name the field.  (And
    without modification_mapping in the input, the malformed
    fixed_modifications is never looked at: the pop raises KeyError.)
    Nor are lines judged by their tokens: the line of one space followed
    by the single token "Oxidation" is cut into an empty label and the
    name, and the run returns a configuration that binds the empty label
    to the name. *)
Lemma C2_counterexample :
  (run_on bad_mapping_config).1 = Raise (MS2RescoreGUIError maxquant_msg) ∧
  (run_on bad_fixed_config).1 = Raise (MS2RescoreGUIError maxquant_msg) ∧
  (¬ ∃ field_named : exn → string,
       (∀ e, (run_on bad_mapping_config).1 = Raise e →
             field_named e = "modification_mapping") ∧
       (∀ e, (run_on bad_fixed_config).1 = Raise e →
             field_named e = "fixed_modifications")) ∧
  (run_on (delete "modification_mapping" bad_fixed_config)).1
    = Raise (KeyError "modification_mapping") ∧
  split space " Oxidation" = [""; "Oxidation"] ∧
  ∃ r h',
    run_on empty_label_config = (Ok r, h') ∧
    maxquant_to_rescore r !! "modification_mapping"
      = Some {[ "" := "Oxidation" ]}.
Proof.
  assert ((run_on bad_mapping_config).1 = Raise (MS2RescoreGUIError maxquant_msg))
    as H1 by reflexivity.
  assert ((run_on bad_fixed_config).1 = Raise (MS2RescoreGUIError maxquant_msg))
    as H2 by reflexivity.
  split; [done|]. split; [done|]. split; [|split; [reflexivity|]].
  - intros (field_named & Hmapping & Hfixed).
    specialize (Hmapping _ H1). specialize (Hfixed _ H2). congruence.
  - split; [reflexivity|]. eexists _, _. split.
    + unfold run_on.
      apply (parse_settings_Ok_intro Fragment.literal_eval 1%positive
               {[1%positive := empty_label_config]} empty_label_config
               (PyStr " Oxidation") {[ "" := "Oxidation" ]}
               (PyStr "C Carbamidomethyl") {[ "C" := "Carbamidomethyl" ]}
               (PyStr "HCD2021") (PyFloat float_0_02)
               (PyStr "[]") (PyList [])); reflexivity.
    + reflexivity.
Qed.

(** C3 on an input whose fixed_modifications is "C Carbamido methyl". *)
Lemma C3_split_on_every_space_witness :
  2 < length (split space "C Carbamido methyl") ∧
  (run_on spaced_name_config).1 = Raise (MS2RescoreGUIError maxquant_msg).
Proof.
  destruct (C3_split_on_every_space Fragment.literal_eval 1%positive
              {[1%positive := spaced_name_config]} spaced_name_config
              "fixed_modifications" ["C Carbamido methyl"])
    as (_ & _ & Hspaced & _).
  - reflexivity.
  - right. left.
  - reflexivity.
  - split; [discriminate | repeat constructor].
  - destruct (Hspaced "C" "Carbamido methyl") as (Hlen & _ & Hraise);
      [left | vm_compute; lia |].
    split; [exact Hlen|]. apply Hraise. eexists. reflexivity.
Defined.

(** C3, as stated, fails: the line "C Carbamido methyl" is cut at both
    spaces, the [dict] constructor rejects the three pieces, and the run
    ends with the MaxQuant error instead of a mapping that binds "C" to
    "Carbamido methyl". *)
Lemma C3_counterexample :
  split space "C Carbamido methyl" = ["C"; "Carbamido"; "methyl"] ∧
  parse_conf_item (PyStr "C Carbamido methyl") = Raise ValueError ∧
  (run_on spaced_name_config).1 = Raise (MS2RescoreGUIError maxquant_msg) ∧
  ¬ ∃ r h',
      run_on spaced_name_config = (Ok r, h') ∧
      maxquant_to_rescore r !! "fixed_modifications"
      = Some {[ "C" := "Carbamido methyl" ]}.
Proof.
  assert ((run_on spaced_name_config).1 = Raise (MS2RescoreGUIError maxquant_msg))
    as Hrun by reflexivity.
  split; [reflexivity|]. split; [reflexivity|]. split; [done|].
  intros (r & h' & Hok & _). by rewrite Hok in Hrun.
Qed.



(** C5 on the run on [example_config]: the general section is
    [general_values]. *)
Lemma C5_relocated_keys_witness :
  ∃ g,
    ({[1%positive := general_values]} : gmap loc (gmap string pyval))
      !! general example_result = Some g ∧
    (∀ k, k ∈ relocated_keys → g !! k = None) ∧
    (∀ k, k ∉ relocated_keys → g !! k = example_config !! k).
Proof.
  destruct (C5_relocated_keys Fragment.literal_eval 1%positive
              {[1%positive := example_config]} example_config
              example_result {[1%positive := general_values]})
    as (g & Hg & Hnone & Hframe & _).
  - reflexivity.
  - reflexivity.
  - exists g. split; [exact Hg|]. split; [exact Hnone | exact Hframe].
Defined.

(** C6 on an input whose fixed_modifications text is empty. *)
Lemma C6_empty_text_gives_empty_mapping_witness :
  ∃ r h',
    run_on empty_fixed_config = (Ok r, h') ∧
    maxquant_to_rescore r !! "fixed_modifications" = Some ∅.
Proof.
  destruct (C6_empty_text_gives_empty_mapping Fragment.literal_eval 1%positive
              {[1%positive := empty_fixed_config]} empty_fixed_config
              "fixed_modifications")
    as (_ & _ & _ & Htotal & _).
  - reflexivity.
  - right. left.
  - reflexivity.
  - apply Htotal.
    apply (rest_ok_intro Fragment.literal_eval empty_fixed_config
             "fixed_modifications" "modification_mapping"
             (PyStr "ox Oxidation") {[ "ox" := "Oxidation" ]}).
    + right. left.
    + left.
    + discriminate.
    + reflexivity.
    + reflexivity.
    + split; eexists; reflexivity.
    + exists (PyStr "[]"), (PyList []). split; reflexivity.
Defined.

(** C7 on a modification mapping whose label cm occurs twice: the second
    full name is kept, and the mapping has two entries. *)
Lemma C7_last_occurrence_wins_witness :
  ∃ m,
    parse_conf_item (PyStr (join newline (line_of_pair <$> duplicate_pairs))) = Ok m ∧
    size m = 2 ∧
    m !! "cm" = Some "Carboxymethyl" ∧
    ∃ r h',
      run_on duplicate_config = (Ok r, h') ∧
      maxquant_to_rescore r !! "modification_mapping" = Some m.
Proof.
  destruct (C7_last_occurrence_wins Fragment.literal_eval 1%positive
              {[1%positive := duplicate_config]} duplicate_config
              "modification_mapping" (line_of_pair <$> duplicate_pairs))
    as (pairs & m & Hlines & Htok & Hm & _ & Hsize & Hlast & _ & Htotal).
  - reflexivity.
  - left.
  - split; [discriminate | repeat constructor].
  - repeat constructor.
  - reflexivity.
  - apply line_of_pair_fmap_inj in Hlines; [subst pairs| |exact Htok].
    2: { repeat constructor. }
    exists m. split; [exact Hm|]. split; [rewrite Hsize; reflexivity|]. split.
    + apply Hlast. exists 2. split; [reflexivity|].
      intros j p Hj Hp. apply lookup_lt_Some in Hp. simpl in Hp. lia.
    + apply Htotal.
      apply (rest_ok_intro Fragment.literal_eval duplicate_config
               "modification_mapping" "fixed_modifications"
               (PyStr "C Carbamidomethyl") {[ "C" := "Carbamidomethyl" ]}).
      * left.
      * right. left.
      * discriminate.
      * reflexivity.
      * reflexivity.
      * split; eexists; reflexivity.
      * exists (PyStr "[]"), (PyList []). split; reflexivity.
Defined.

(** C8 on an input whose ms2pip_modifications text is "[", and on an
    input whose text lists one record. *)
Lemma C8_ms2pip_modifications_error_witness :
  (run_on unbalanced_config).1 = Raise (MS2RescoreGUIError ms2pip_msg) ∧
  ∃ r h',
    run_on records_config = (Ok r, h') ∧
    ms2pip r !! "modifications"
      = Some (PyList [PyDict [(PyStr "name", PyStr "Oxidation");
                              (PyStr "unimod_accession", PyInt 35);
                              (PyStr "n_term", PyBool false)]]).
Proof.
  split.
  - destruct (C8_ms2pip_modifications_error Fragment.literal_eval 1%positive
                {[1%positive := unbalanced_config]} unbalanced_config (PyStr "["))
      as (Hiff & _).
    + reflexivity.
    + reflexivity.
    + apply Hiff. split; [|split].
      * apply (maxquant_ok_intro unbalanced_config
                 (PyStr "ox Oxidation") {[ "ox" := "Oxidation" ]}
                 (PyStr "C Carbamidomethyl") {[ "C" := "Carbamidomethyl" ]});
          reflexivity.
      * split; eexists; reflexivity.
      * exists SyntaxError. reflexivity.
  - destruct (C8_ms2pip_modifications_error Fragment.literal_eval 1%positive
                {[1%positive := records_config]} records_config
                (PyStr "[{'name': 'Oxidation', 'unimod_accession': 35, 'n_term': False}]"))
      as (_ & Hreached & _).
    + reflexivity.
    + reflexivity.
    + destruct Hreached as (_ & _ & Hstored).
      * apply (maxquant_ok_intro records_config
                 (PyStr "ox Oxidation") {[ "ox" := "Oxidation" ]}
                 (PyStr "C Carbamidomethyl") {[ "C" := "Carbamidomethyl" ]});
          reflexivity.
      * split; eexists; reflexivity.
      * apply Hstored. reflexivity.
Defined.

(** C8, as stated, fails: the text "[" does not evaluate, yet behind a
    modification mapping of a single token the run ends with the MaxQuant
    error, and on an input without ms2pip_model with the KeyError of that
    pop; in neither run is the MS²PIP error raised, so it is not raised
    exactly when the text does not evaluate. *)
Lemma C8_counterexample :
  Fragment.literal_eval (PyStr "[") = Raise SyntaxError ∧
  unbalanced_bad_mapping_config !! "ms2pip_modifications" = Some (PyStr "[") ∧
  (run_on unbalanced_bad_mapping_config).1
    = Raise (MS2RescoreGUIError maxquant_msg) ∧
  delete "ms2pip_model" unbalanced_config !! "ms2pip_modifications"
    = Some (PyStr "[") ∧
  (run_on (delete "ms2pip_model" unbalanced_config)).1
    = Raise (KeyError "ms2pip_model") ∧
  ¬ ((run_on unbalanced_bad_mapping_config).1
       = Raise (MS2RescoreGUIError ms2pip_msg)
     ↔ ∃ e, Fragment.literal_eval (PyStr "[") = Raise e) ∧
  ¬ ((run_on (delete "ms2pip_model" unbalanced_config)).1
       = Raise (MS2RescoreGUIError ms2pip_msg)
     ↔ ∃ e, Fragment.literal_eval (PyStr "[") = Raise e).
Proof.
  assert (∃ e, Fragment.literal_eval (PyStr "[") = Raise e) as Hfails
    by (exists SyntaxError; reflexivity).
  assert ((run_on unbalanced_bad_mapping_config).1
          = Raise (MS2RescoreGUIError maxquant_msg)) as H1 by reflexivity.
  assert ((run_on (delete "ms2pip_model" unbalanced_config)).1
          = Raise (KeyError "ms2pip_model")) as H2 by reflexivity.
  split; [reflexivity|]. split; [reflexivity|]. split; [exact H1|].
  split; [reflexivity|]. split; [exact H2|]. split.
  - intros [_ Hraise]. specialize (Hraise Hfails).
    rewrite H1 in Hraise. injection Hraise as Hmsg. discriminate Hmsg.
  - intros [_ Hraise]. specialize (Hraise Hfails).
    rewrite H2 in Hraise. discriminate Hraise.
Qed.

(** C9 on the example input without ms2pip_frag_error, and without
    ms2pip_modifications. *)
Lemma C9_missing_keys_witness :
  (run_on (delete "ms2pip_frag_error" example_config)).1
    = Raise (KeyError "ms2pip_frag_error") ∧
  (run_on (delete "ms2pip_modifications" example_config)).1
    = Raise (MS2RescoreGUIError ms2pip_msg).
Proof.
  assert (∀ cfg : gmap string pyval,
    cfg !! "modification_mapping"
      = Some (PyStr (join newline ["ox Oxidation"; "ac Acetyl"])) →
    cfg !! "fixed_modifications" = Some (PyStr "C Carbamidomethyl") →
    ∀ f v, f ∈ conf_items → cfg !! f = Some v → ∃ m, parse_conf_item v = Ok m)
    as Hwf.
  { intros cfg H1 H2 f v Hf Hv. unfold conf_items in Hf.
    apply elem_of_cons in Hf as [->|Hf];
      [|apply list_elem_of_singleton in Hf as ->].
    - rewrite H1 in Hv. injection Hv as <-. eexists. reflexivity.
    - rewrite H2 in Hv. injection Hv as <-. eexists. reflexivity. }
  split.
  - destruct (C9_missing_keys Fragment.literal_eval 1%positive
                {[1%positive := delete "ms2pip_frag_error" example_config]}
                (delete "ms2pip_frag_error" example_config))
      as (Hraw & _); [reflexivity|].
    destruct Hraw as (k & Hk & Hnone & Hrun).
    + apply Hwf; reflexivity.
    + exists "ms2pip_frag_error". split; [|reflexivity].
      right. right. right. left.
    + unfold unguarded_keys, conf_items in Hk. simpl in Hk.
      repeat (apply elem_of_cons in Hk as [->|Hk]; [try discriminate Hnone|]).
      * exact Hrun.
      * by apply elem_of_nil in Hk.
  - destruct (C9_missing_keys Fragment.literal_eval 1%positive
                {[1%positive := delete "ms2pip_modifications" example_config]}
                (delete "ms2pip_modifications" example_config))
      as (_ & _ & _ & Hguarded); [reflexivity|].
    destruct Hguarded as [_ Hmsg].
    + intros k Hk. unfold unguarded_keys, conf_items in Hk. simpl in Hk.
      repeat (apply elem_of_cons in Hk as [->|Hk]; [eexists; reflexivity|]).
      by apply elem_of_nil in Hk.
    + reflexivity.
    + apply Hmsg.
      apply (maxquant_ok_intro _
               (PyStr (join newline ["ox Oxidation"; "ac Acetyl"]))
               {[ "ox" := "Oxidation"; "ac" := "Acetyl" ]}
               (PyStr "C Carbamidomethyl") {[ "C" := "Carbamidomethyl" ]});
        reflexivity.
Defined.

(** C9, as stated, fails: an input without ms2pip_model whose
    modification mapping is a single token raises the MaxQuant
    MS2RescoreGUIError, not a KeyError: the mapping is parsed before
    ms2pip_model is popped. *)
Lemma C9_counterexample :
  "ms2pip_model" ∈ unguarded_keys ∧
  delete "ms2pip_model" bad_mapping_config !! "ms2pip_model" = None ∧
  (run_on (delete "ms2pip_model" bad_mapping_config)).1
    = Raise (MS2RescoreGUIError maxquant_msg) ∧
  ¬ ∃ k, (run_on (delete "ms2pip_model" bad_mapping_config)).1
         = Raise (KeyError k).
Proof.
  assert ((run_on (delete "ms2pip_model" bad_mapping_config)).1
          = Raise (MS2RescoreGUIError maxquant_msg)) as H1 by reflexivity.
  split; [|split; [reflexivity|split; [exact H1|]]].
  - unfold unguarded_keys, conf_items. simpl. right. right. left.
  - intros [k Hk]. rewrite H1 in Hk. discriminate Hk.
Qed.

(** C10 on an input whose ms2pip_modifications text is the number 7. *)
Lemma C10_any_literal_is_stored_witness :
  ∃ r h',
    run_on number_config = (Ok r, h') ∧
    ms2pip r !! "modifications" = Some (PyInt 7).
Proof.
  destruct (C10_any_literal_is_stored Fragment.literal_eval 1%positive
              {[1%positive := number_config]} number_config (PyStr "7") (PyInt 7))
    as (Hok & _).
  - reflexivity.
  - reflexivity.
  - reflexivity.
  - apply Hok.
    + apply (maxquant_ok_intro number_config
               (PyStr "ox Oxidation") {[ "ox" := "Oxidation" ]}
               (PyStr "C Carbamidomethyl") {[ "C" := "Carbamidomethyl" ]});
        reflexivity.
    + split; eexists; reflexivity.
Defined.

(** C10, as stated, fails: the text "7" evaluates to the number 7, yet
    behind a modification mapping of a single token the run raises the
    MaxQuant error, and on an input without ms2pip_model the KeyError of
    that pop; neither run succeeds, and nothing is stored. *)
Lemma C10_counterexample :
  Fragment.literal_eval (PyStr "7") = Ok (PyInt 7) ∧
  number_bad_mapping_config !! "ms2pip_modifications" = Some (PyStr "7") ∧
  (run_on number_bad_mapping_config).1
    = Raise (MS2RescoreGUIError maxquant_msg) ∧
  (¬ ∃ r h', run_on number_bad_mapping_config = (Ok r, h')) ∧
  delete "ms2pip_model" number_config !! "ms2pip_modifications"
    = Some (PyStr "7") ∧
  (run_on (delete "ms2pip_model" number_config)).1
    = Raise (KeyError "ms2pip_model") ∧
  ¬ ∃ r h', run_on (delete "ms2pip_model" number_config) = (Ok r, h').
Proof.
  assert ((run_on number_bad_mapping_config).1
          = Raise (MS2RescoreGUIError maxquant_msg)) as H1 by reflexivity.
  assert ((run_on (delete "ms2pip_model" number_config)).1
          = Raise (KeyError "ms2pip_model")) as H2 by reflexivity.
  split; [reflexivity|]. split; [reflexivity|]. split; [exact H1|].
  split; [|split; [reflexivity|split; [exact H2|]]].
  - intros (r & h' & Hrun). rewrite Hrun in H1. discriminate H1.
  - intros (r & h' & Hrun). rewrite Hrun in H2. discriminate H2.
Qed.

(** ** Further facts about [split] and the [dict] constructor *)

Lemma split_app sep a b :
  split sep (a +:+ String sep b) = (split sep a ++ split sep b)%list.
Proof.
  induction a as [|c a IH]; simpl.
  - by rewrite Ascii.eqb_refl.
  - destruct (Ascii.eqb c sep); simpl; [by rewrite IH|].
    rewrite IH. pose proof (split_nonempty sep a).
    by destruct (split sep a).
Qed.

Lemma split_pieces_no_sep sep s :
  Forall (λ piece, count_char sep piece = 0) (split sep s).
Proof.
  induction s as [|c s IH]; simpl; [by repeat constructor|].
  destruct (Ascii.eqb c sep) eqn:Hc; [by constructor|].
  destruct (split sep s) as [|piece pieces].
  { repeat constructor. simpl. by rewrite Hc. }
  apply Forall_cons in IH as [Hpiece Hpieces].
  constructor; [|done]. simpl. by rewrite Hc.
Qed.

Lemma parse_conf_item_str s :
  s ≠ "" →
  parse_conf_item (PyStr s) = dict_from_rows (split space <$> split newline s).
Proof.
  intros Hs. unfold parse_conf_item. simpl.
  by destruct (String.eqb_spec s "").
Qed.

Lemma foldl_dict_update_row_Ok m0 rows :
  Forall (λ row, length row = 2) rows →
  ∃ m, foldl dict_update_row (Ok m0) rows = Ok m.
Proof.
  intros Hrows. revert m0.
  induction Hrows as [|row rows Hrow Hrows IH]; intros m0; simpl; [by eexists|].
  destruct row as [|k [|v [|x row]]]; try done; apply IH.
Qed.

Lemma dict_from_rows_Ok_iff rows :
  (∃ m, dict_from_rows rows = Ok m) ↔ Forall (λ row, length row = 2) rows.
Proof.
  split.
  - intros [m Hm]. apply dict_from_rows_Ok_inv in Hm as (pairs & -> & _).
    apply Forall_fmap. by apply Forall_true.
  - apply foldl_dict_update_row_Ok.
Qed.

(** The texts the [try] body accepts. *)
Lemma parse_conf_item_str_Ok_iff s :
  (∃ m, parse_conf_item (PyStr s) = Ok m) ↔
  s = "" ∨ Forall (λ line, count_char space line = 1) (split newline s).
Proof.
  destruct (decide (s = "")) as [->|Hs].
  - split; [by left|]. intros _. by exists ∅.
  - rewrite (parse_conf_item_str s Hs), dict_from_rows_Ok_iff, Forall_fmap.
    split.
    + intros Hall. right. eapply Forall_impl; [exact Hall|].
      intros line. simpl. rewrite length_split. lia.
    + intros [?|Hall]; [done|]. eapply Forall_impl; [exact Hall|].
      intros line. simpl. rewrite length_split. lia.
Qed.

Lemma parse_conf_item_non_str v :
  (∀ s, v ≠ PyStr s) →
  parse_conf_item v = if truthy v then
                        Raise (match v with PyBytes _ => TypeError | _ => AttributeError end)
                      else Ok ∅.
Proof.
  intros Hv. unfold parse_conf_item.
  destruct (truthy v); [|done]. destruct v; try done. by destruct (Hv s).
Qed.

(** Labels and names of a parsed mapping hold no space and no line break. *)
Lemma parse_conf_item_tokens v0 m k v :
  parse_conf_item v0 = Ok m → m !! k = Some v → token k ∧ token v.
Proof.
  unfold parse_conf_item. destruct (truthy v0).
  2: { intros [= <-]. by rewrite lookup_empty. }
  destruct v0; try done. simpl. intros Hm Hk.
  apply dict_from_rows_Ok_inv in Hm as (pairs & Hrows & ->).
  apply foldl_insert_last_wins in Hk as (i & Hi & _).
  assert ((row_of_pair <$> pairs) !! i = Some [k; v]) as Hrow.
  { by rewrite list_lookup_fmap, Hi. }
  rewrite <- Hrows in Hrow.
  change (map (split space) (split newline s)) with (split space <$> split newline s) in Hrow.
  rewrite list_lookup_fmap in Hrow.
  destruct (split newline s !! i) as [line|] eqn:Hline; [|done].
  simpl in Hrow. injection Hrow as Hsplit.
  pose proof (split_pieces_no_sep space line) as Hspace.
  rewrite Hsplit in Hspace.
  apply Forall_cons in Hspace as [Hk Hspace].
  apply Forall_cons in Hspace as [Hv _].
  pose proof (split_pieces_no_sep newline s) as Hnewline.
  rewrite Forall_lookup in Hnewline. specialize (Hnewline _ _ Hline).
  rewrite <- (join_split space line), Hsplit in Hnewline.
  change (join space [k; v]) with (line_of_pair (k, v)) in Hnewline.
  rewrite count_newline_line_of_pair in Hnewline. simpl in Hnewline.
  unfold token. lia.
Qed.

(** With distinct labels, sequential insertion is [list_to_map]. *)
Lemma foldl_insert_list_to_map (pairs : list (string * string)) :
  NoDup pairs.*1 →
  foldl (λ m p, <[p.1 := p.2]> m) (∅ : gmap string string) pairs = list_to_map pairs.
Proof.
  intros Hnodup. apply map_eq. intros k. apply option_eq. intros v.
  rewrite foldl_insert_last_wins, <- elem_of_list_to_map by done.
  rewrite list_elem_of_lookup. split.
  - intros (i & Hi & _). by exists i.
  - intros (i & Hi). exists i. split; [done|].
    intros j p Hj Hp Hkey.
    assert (i = j); [|lia].
    apply (NoDup_lookup pairs.*1 i j k Hnodup).
    + by rewrite list_lookup_fmap, Hi.
    + rewrite list_lookup_fmap, Hp. simpl. by rewrite Hkey.
Qed.

Section ParserExtras.

Variable literal_eval : pyval → outcome pyval.

(** A MaxQuant value whose [try] body raises stops the run. *)
Lemma parse_settings_item_raises config h cfg f v e :
  h !! config = Some cfg →
  f ∈ conf_items → cfg !! f = Some v → parse_conf_item v = Raise e →
  (∀ r, (parse_settings literal_eval config h).1 ≠ Ok r) ∧
  (is_Some (cfg !! "modification_mapping") →
   (parse_settings literal_eval config h).1
   = Raise (MS2RescoreGUIError maxquant_msg)).
Proof.
  intros Hh Hf Hv He. rewrite (parse_settings_eq _ _ _ _ Hh). cbn zeta.
  unfold conf_items in Hf.
  apply elem_of_cons in Hf as [->|Hf];
    [|apply list_elem_of_singleton in Hf as ->].
  - rewrite Hv, He. by split.
  - destruct (cfg !! "modification_mapping") as [v1|]; [|split; [done|]].
    2: { by intros [? ?]. }
    destruct (parse_conf_item v1) as [m1|]; [|by split].
    rewrite Hv, He. by split.
Qed.

(** The store a run leaves behind: the caller's mapping without the keys
    of the first [n] pops, where [n] is read off the outcome. *)
Lemma parse_settings_store config h cfg :
  h !! config = Some cfg →
  ∃ n,
    (parse_settings literal_eval config h).2
      = <[config := foldr delete cfg (popped n)]> h ∧
    match (parse_settings literal_eval config h).1 with
    | Ok _ => n = 5
    | Raise (KeyError k) => unguarded_keys !! n = Some k ∧ cfg !! k = None
    | Raise (MS2RescoreGUIError msg) =>
        (msg = maxquant_msg ∧ (n = 1 ∨ n = 2)) ∨
        (msg = ms2pip_msg ∧ (n = 4 ∨ n = 5))
    | Raise _ => False
    end.
Proof.
  intros Hh. rewrite (parse_settings_eq _ _ _ _ Hh). cbn zeta.
  destruct (cfg !! "modification_mapping") as [v1|] eqn:H1.
  2: { exists 0. split; [|done]. cbn. by rewrite insert_id. }
  destruct (parse_conf_item v1) as [m1|].
  2: { exists 1. split; [done|]. left. auto. }
  destruct (cfg !! "fixed_modifications") as [v2|] eqn:H2.
  2: { by exists 1. }
  destruct (parse_conf_item v2) as [m2|].
  2: { exists 2. split; [done|]. left. auto. }
  destruct (cfg !! "ms2pip_model") as [model|] eqn:H3.
  2: { by exists 2. }
  destruct (cfg !! "ms2pip_frag_error") as [frag|] eqn:H4.
  2: { by exists 3. }
  destruct (cfg !! "ms2pip_modifications") as [text|] eqn:H5.
  2: { exists 4. split; [done|]. right. auto. }
  destruct (literal_eval text) as [lit|].
  - by exists 5.
  - exists 5. split; [done|]. right. auto.
Qed.

(** X1: [parse_settings] returns a configuration exactly when the input
    holds the five relocated keys, the [try] body of both MaxQuant values
    runs without exception and the MS²PIP text evaluates. *)
Theorem X1_success_iff config h cfg :
  h !! config = Some cfg →
  (∃ r h', parse_settings literal_eval config h = (Ok r, h')) ↔
  maxquant_ok cfg ∧ ms2pip_scalars_present cfg ∧ ms2pip_text_ok literal_eval cfg.
Proof.
  intros Hh. split.
  - intros (r & h' & Hrun).
    destruct (parse_settings_Ok_inv _ _ _ _ _ _ Hh Hrun)
      as (v1 & m1 & v2 & m2 & model & frag & text & lit
          & H1 & Hm1 & H2 & Hm2 & H3 & H4 & H5 & Hlit & _).
    split; [by eapply maxquant_ok_intro|]. split; [by split; eexists|].
    by exists text, lit.
  - intros (Hmq & [[model H3] [frag H4]] & text & lit & H5 & Hlit).
    destruct (maxquant_ok_inv _ Hmq) as (v1 & m1 & v2 & m2 & H1 & Hm1 & H2 & Hm2).
    eexists _, _. by eapply parse_settings_Ok_intro.
Qed.

(** X2: [parse_settings] raises [KeyError k] exactly when [k] is the first
    of modification_mapping, fixed_modifications, ms2pip_model,
    ms2pip_frag_error (in this order) that the input lacks and the
    MaxQuant values popped before it run through their [try] body; so it
    never raises a KeyError on an input that holds these four keys, and
    never one for ms2pip_modifications. *)
Theorem X2_key_error_iff config h cfg k :
  h !! config = Some cfg →
  (parse_settings literal_eval config h).1 = Raise (KeyError k) ↔
  ∃ n, unguarded_keys !! n = Some k ∧ cfg !! k = None ∧
       (∀ j k', j < n → unguarded_keys !! j = Some k' → is_Some (cfg !! k')) ∧
       (∀ j f v, j < n → unguarded_keys !! j = Some f → f ∈ conf_items →
                 cfg !! f = Some v → ∃ m, parse_conf_item v = Ok m).
Proof.
  intros Hh. rewrite (parse_settings_eq _ _ _ _ Hh). cbn zeta. split.
  - destruct (cfg !! "modification_mapping") as [v1|] eqn:H1.
    2: { intros [= <-]. exists 0. repeat split; try done; intros; lia. }
    destruct (parse_conf_item v1) as [m1|] eqn:Hm1; [|done].
    destruct (cfg !! "fixed_modifications") as [v2|] eqn:H2.
    2: { intros [= <-]. exists 1. repeat split; try done.
         - intros j k' Hj Hk'. destruct j as [|j]; [|lia].
           injection Hk' as <-. by eexists.
         - intros j f v Hj Hf _ Hv. destruct j as [|j]; [|lia].
           injection Hf as <-. simplify_eq. by eexists. }
    destruct (parse_conf_item v2) as [m2|] eqn:Hm2; [|done].
    destruct (cfg !! "ms2pip_model") as [model|] eqn:H3.
    2: { intros [= <-]. exists 2. repeat split; try done.
         - intros j k' Hj Hk'. destruct j as [|[|j]]; [| |lia];
             injection Hk' as <-; by eexists.
         - intros j f v Hj Hf _ Hv. destruct j as [|[|j]]; [| |lia];
             injection Hf as <-; simplify_eq; by eexists. }
    destruct (cfg !! "ms2pip_frag_error") as [frag|] eqn:H4.
    2: { intros [= <-]. exists 3. repeat split; try done.
         - intros j k' Hj Hk'. destruct j as [|[|[|j]]]; [| | |lia];
             injection Hk' as <-; by eexists.
         - intros j f v Hj Hf Hin Hv. destruct j as [|[|[|j]]]; [| | |lia];
             injection Hf as <-; simplify_eq; try by eexists.
           unfold conf_items in Hin.
           repeat (apply elem_of_cons in Hin as [?|Hin]; [done|]).
           by apply elem_of_nil in Hin. }
    destruct (cfg !! "ms2pip_modifications") as [text|]; [|done].
    by destruct (literal_eval text).
  - intros (n & Hn & Hnone & Hbefore & Hwf).
    assert (∀ j f, j < n → unguarded_keys !! j = Some f → f ∈ conf_items →
                   ∃ v m, cfg !! f = Some v ∧ parse_conf_item v = Ok m) as Hok.
    { intros j f Hj Hf Hin. destruct (Hbefore j f Hj Hf) as [v Hv].
      destruct (Hwf j f v Hj Hf Hin Hv) as [m Hm]. by exists v, m. }
    destruct n as [|[|[|[|n]]]]; simpl in Hn; simplify_eq.
    + by rewrite Hnone.
    + destruct (Hok 0 "modification_mapping") as (v1 & m1 & -> & ->);
        [lia|done|by left|].
      by rewrite Hnone.
    + destruct (Hok 0 "modification_mapping") as (v1 & m1 & -> & ->);
        [lia|done|by left|].
      destruct (Hok 1 "fixed_modifications") as (v2 & m2 & -> & ->);
        [lia|done|by right; left|].
      by rewrite Hnone.
    + destruct (Hok 0 "modification_mapping") as (v1 & m1 & -> & ->);
        [lia|done|by left|].
      destruct (Hok 1 "fixed_modifications") as (v2 & m2 & -> & ->);
        [lia|done|by right; left|].
      destruct (Hbefore 2 "ms2pip_model") as [model ->]; [lia|done|].
      by rewrite Hnone.
Qed.

(** X3: in every configuration [parse_settings] returns, the labels and
    the full names of both MaxQuant mappings hold no space and no line
    break. *)
Theorem X3_parsed_entries_are_tokens config h cfg r h' f m k v :
  h !! config = Some cfg →
  parse_settings literal_eval config h = (Ok r, h') →
  maxquant_to_rescore r !! f = Some m → m !! k = Some v →
  token k ∧ token v.
Proof.
  intros Hh Hrun Hf Hk.
  destruct (parse_settings_Ok_inv _ _ _ _ _ _ Hh Hrun)
    as (v1 & m1 & v2 & m2 & ? & ? & ? & ?
        & _ & Hm1 & _ & Hm2 & _ & _ & _ & _ & -> & _).
  cbn in Hf. rewrite !lookup_insert in Hf.
  repeat case_decide; simplify_eq.
  - exact (parse_conf_item_tokens _ _ _ _ Hm2 Hk).
  - exact (parse_conf_item_tokens _ _ _ _ Hm1 Hk).
Qed.

(** X4: when every other stage passes, [parse_settings] accepts the text
    of a MaxQuant field exactly when the text is empty or each of its
    lines holds exactly one space. *)
Theorem X4_accepted_texts config h cfg f s :
  h !! config = Some cfg → f ∈ conf_items → cfg !! f = Some (PyStr s) →
  rest_ok literal_eval cfg f →
  (∃ r h', parse_settings literal_eval config h = (Ok r, h')) ↔
  s = "" ∨ Forall (λ line, count_char space line = 1) (split newline s).
Proof.
  intros Hh Hf Hv Hrest. rewrite <- parse_conf_item_str_Ok_iff. split.
  - intros (r & h' & Hrun).
    destruct (parse_settings_field_inv _ _ _ _ _ _ _ _ Hh Hf Hv Hrun)
      as (m & Hm & _).
    by exists m.
  - intros [m Hm].
    destruct (parse_settings_field_ok _ _ _ _ _ _ _ Hh Hf Hv Hm Hrest)
      as (r & h' & Hrun & _).
    by exists r, h'.
Qed.

(** X5: a MaxQuant field whose value is not a text is not rejected for
    its type: a false value (None, zero, an empty container) gives the
    empty mapping, and a true one stops the run with MS2RescoreGUIError
    (the missing [split] method is caught by the [try] block). *)
Theorem X5_non_text_values config h cfg f v :
  h !! config = Some cfg → f ∈ conf_items → cfg !! f = Some v →
  (∀ s, v ≠ PyStr s) →
  (truthy v = false →
   (∀ r h', parse_settings literal_eval config h = (Ok r, h') →
            maxquant_to_rescore r !! f = Some ∅) ∧
   (rest_ok literal_eval cfg f →
    ∃ r h', parse_settings literal_eval config h = (Ok r, h') ∧
            maxquant_to_rescore r !! f = Some ∅)) ∧
  (truthy v = true →
   (∀ r, (parse_settings literal_eval config h).1 ≠ Ok r) ∧
   (is_Some (cfg !! "modification_mapping") →
    (parse_settings literal_eval config h).1
    = Raise (MS2RescoreGUIError maxquant_msg))).
Proof.
  intros Hh Hf Hv Hstr.
  pose proof (parse_conf_item_non_str v Hstr) as Hparse.
  split; intros Htruthy; rewrite Htruthy in Hparse.
  - split.
    + intros r h' Hrun.
      destruct (parse_settings_field_inv _ _ _ _ _ _ _ _ Hh Hf Hv Hrun)
        as (m & Hm & Hr).
      rewrite Hparse in Hm. by injection Hm as <-.
    + intros Hrest. by eapply parse_settings_field_ok.
  - by eapply parse_settings_item_raises.
Qed.

(** X6: a MaxQuant text with a blank line (a text that ends or starts
    with a line break, or holds two line breaks in a row) is rejected: the
    run returns no configuration and raises MS2RescoreGUIError (when
    modification_mapping, which is popped first, is present). *)
Theorem X6_blank_line_rejected config h cfg f a b text :
  h !! config = Some cfg → f ∈ conf_items → cfg !! f = Some (PyStr text) →
  text = a +:+ String newline "" ∨ text = String newline b ∨
  text = a +:+ String newline (String newline b) →
  (∀ r, (parse_settings literal_eval config h).1 ≠ Ok r) ∧
  (is_Some (cfg !! "modification_mapping") →
   (parse_settings literal_eval config h).1
   = Raise (MS2RescoreGUIError maxquant_msg)).
Proof.
  intros Hh Hf Hv Htext.
  assert (text ≠ "" ∧ "" ∈ split newline text) as [Hne Hblank].
  { destruct Htext as [-> |[-> | ->]].
    - split; [by destruct a|]. rewrite split_app.
      apply elem_of_app. right. by left.
    - split; [done|]. by left.
    - split; [by destruct a|]. rewrite split_app.
      apply elem_of_app. right. by left. }
  eapply parse_settings_item_raises; [done..|].
  rewrite (parse_conf_item_str text Hne).
  apply dict_from_rows_bad with (row := split space "").
  - by apply list_elem_of_fmap_2.
  - done.
Qed.

(** X7: [parse_settings] cannot be run twice on the same mapping: once a
    run has popped modification_mapping, a second run on that mapping
    raises the KeyError of modification_mapping, whatever the first run
    returned. *)
Theorem X7_second_run_raises config h cfg :
  h !! config = Some cfg → is_Some (cfg !! "modification_mapping") →
  (parse_settings literal_eval config
     (parse_settings literal_eval config h).2).1
  = Raise (KeyError "modification_mapping").
Proof.
  intros Hh [v1 H1].
  destruct (parse_settings_store config h cfg Hh) as (n & -> & Hn).
  assert (1 ≤ n)%nat as Hpos.
  { destruct (parse_settings literal_eval config h).1 as [r|e]; [lia|].
    destruct e as [k| | | | | | |msg]; try done.
    - destruct Hn as [Hk Hnone]. destruct n; [|lia].
      injection Hk as <-. congruence.
    - destruct Hn as [[_ [-> | ->]]|[_ [-> | ->]]]; lia. }
  rewrite parse_settings_eq
    with (cfg := foldr delete cfg (popped n)) by apply lookup_insert_eq.
  rewrite lookup_foldr_delete; [done|].
  unfold popped. rewrite elem_of_reverse. apply elem_of_take.
  exists 0. split; [done|lia].
Qed.

(** X8: the outcome of [parse_settings] depends on the five relocated
    keys only: two inputs that agree on them raise the same exception or
    return the same maxquant_to_rescore and ms2pip sections, whatever
    their other keys hold. *)
Theorem X8_only_relocated_keys_matter config h cfg config' h' cfg' :
  h !! config = Some cfg → h' !! config' = Some cfg' →
  (∀ k, k ∈ relocated_keys → cfg !! k = cfg' !! k) →
  match (parse_settings literal_eval config h).1,
        (parse_settings literal_eval config' h').1 with
  | Ok r, Ok r' =>
      maxquant_to_rescore r = maxquant_to_rescore r' ∧ ms2pip r = ms2pip r'
  | Raise e, Raise e' => e = e'
  | _, _ => False
  end.
Proof.
  intros Hh Hh' Hagree.
  rewrite (parse_settings_eq _ _ _ _ Hh), (parse_settings_eq _ _ _ _ Hh').
  cbn zeta.
  rewrite <- !Hagree
    by (unfold relocated_keys, unguarded_keys, conf_items; cbn;
        repeat ((by left) || right)).
  repeat case_match; by simplify_eq/=.
Qed.

(** X9: a failed run leaves the caller's mapping without the keys popped
    before the failure: no key is gone after the KeyError of
    modification_mapping, the malformed MaxQuant field itself is gone
    after the MaxQuant error, and the four or five keys popped so far are
    gone after the MS²PIP error, although no configuration is returned. *)
Theorem X9_store_after_failure config h cfg e h1 :
  h !! config = Some cfg →
  parse_settings literal_eval config h = (Raise e, h1) →
  ∃ n,
    h1 = <[config := foldr delete cfg (popped n)]> h ∧
    match e with
    | KeyError k => unguarded_keys !! n = Some k ∧ cfg !! k = None
    | MS2RescoreGUIError msg =>
        (msg = maxquant_msg ∧ (n = 1 ∨ n = 2)) ∨
        (msg = ms2pip_msg ∧ (n = 4 ∨ n = 5))
    | _ => False
    end.
Proof.
  intros Hh Hrun.
  destruct (parse_settings_store config h cfg Hh) as (n & Hstore & Hn).
  rewrite Hrun in Hstore, Hn. by exists n.
Qed.

End ParserExtras.

(** With distinct labels, a text parses to the mapping of its pairs,
    whatever the order of its lines. *)
Lemma parse_conf_item_perm pairs pairs' :
  pairs ≡ₚ pairs' → NoDup pairs.*1 → pairs ≠ [] →
  Forall (λ p, token p.1 ∧ token p.2) pairs →
  parse_conf_item (PyStr (join newline (line_of_pair <$> pairs')))
  = Ok (list_to_map pairs).
Proof.
  intros Hperm Hnodup Hne Htok.
  assert (NoDup pairs'.*1) as Hnodup' by by rewrite <- Hperm.
  assert (pairs' ≠ []) as Hne'.
  { intros ->. by apply Permutation_nil_r in Hperm. }
  assert (Forall (λ p, token p.1 ∧ token p.2) pairs') as Htok'
    by by rewrite <- Hperm.
  rewrite parse_conf_item_pairs, foldl_insert_list_to_map by done.
  f_equal. symmetry. by apply list_to_map_proper.
Qed.

(** The listing of a mapping of tokens parses to the mapping. *)
Lemma parse_conf_item_listing (m : gmap string string) :
  map_Forall (λ k v, token k ∧ token v) m →
  parse_conf_item (PyStr (join newline (line_of_pair <$> map_to_list m))) = Ok m.
Proof.
  intros Htok. destruct (decide (m = ∅)) as [->|Hne].
  - by rewrite map_to_list_empty.
  - rewrite parse_conf_item_pairs.
    + rewrite foldl_insert_list_to_map by apply NoDup_fst_map_to_list.
      by rewrite list_to_map_to_list.
    + by rewrite map_to_list_empty_iff.
    + apply map_Forall_to_list in Htok.
      eapply Forall_impl; [exact Htok|]. by intros [k v].
Qed.

Section ListingFacts.

Variable literal_eval : pyval → outcome pyval.

(** X10: the order of the lines of a MaxQuant text does not matter when
    the labels are distinct: a text that lists the pairs of tokens
    [pairs] in any order parses like the text that lists them in order,
    to the mapping that binds every label to its name; a successful run
    stores this mapping, and the run succeeds whenever every other stage
    passes. *)
Theorem X10_line_order_irrelevant config h cfg f pairs pairs' :
  h !! config = Some cfg → f ∈ conf_items →
  pairs ≡ₚ pairs' → NoDup pairs.*1 → pairs ≠ [] →
  Forall (λ p, token p.1 ∧ token p.2) pairs →
  cfg !! f = Some (PyStr (join newline (line_of_pair <$> pairs'))) →
  parse_conf_item (PyStr (join newline (line_of_pair <$> pairs')))
    = parse_conf_item (PyStr (join newline (line_of_pair <$> pairs))) ∧
  (∀ r h',
     parse_settings literal_eval config h = (Ok r, h') →
     maxquant_to_rescore r !! f = Some (list_to_map pairs)) ∧
  (rest_ok literal_eval cfg f →
   ∃ r h', parse_settings literal_eval config h = (Ok r, h') ∧
           maxquant_to_rescore r !! f = Some (list_to_map pairs)).
Proof.
  intros Hh Hf Hperm Hnodup Hne Htok Hv.
  pose proof (parse_conf_item_perm pairs pairs' Hperm Hnodup Hne Htok) as Hm.
  split; [|split].
  - rewrite Hm. symmetry. by apply parse_conf_item_perm.
  - intros r h' Hrun.
    destruct (parse_settings_field_inv _ _ _ _ _ _ _ _ Hh Hf Hv Hrun)
      as (m & Hm' & Hr).
    rewrite Hm in Hm'. by injection Hm' as <-.
  - intros Hrest. by eapply parse_settings_field_ok.
Qed.

(** X11: every mapping of tokens is read back from its listing: the text
    that lists the entries of [m], one [label name] line each, parses to
    [m] (the empty mapping from the empty text); a successful run on that
    text stores [m], and the run succeeds whenever every other stage
    passes. *)
Theorem X11_listing_round_trip config h cfg f (m : gmap string string) :
  h !! config = Some cfg → f ∈ conf_items →
  map_Forall (λ k v, token k ∧ token v) m →
  cfg !! f = Some (PyStr (join newline (line_of_pair <$> map_to_list m))) →
  parse_conf_item (PyStr (join newline (line_of_pair <$> map_to_list m)))
    = Ok m ∧
  (∀ r h',
     parse_settings literal_eval config h = (Ok r, h') →
     maxquant_to_rescore r !! f = Some m) ∧
  (rest_ok literal_eval cfg f →
   ∃ r h', parse_settings literal_eval config h = (Ok r, h') ∧
           maxquant_to_rescore r !! f = Some m).
Proof.
  intros Hh Hf Htok Hv.
  pose proof (parse_conf_item_listing m Htok) as Hm.
  split; [done|]. split.
  - intros r h' Hrun.
    destruct (parse_settings_field_inv _ _ _ _ _ _ _ _ Hh Hf Hv Hrun)
      as (m' & Hm' & Hr).
    rewrite Hm in Hm'. by injection Hm' as <-.
  - intros Hrest. by eapply parse_settings_field_ok.
Qed.

End ListingFacts.

Section FormFacts.

Variable literal_eval : pyval → outcome pyval.
Variable ms2pip_models : list string.
Variable ms2pip_mods_text : string.

Lemma unguarded_keys_declared ns k :
  holds_every_dest ms2pip_models ms2pip_mods_text ns →
  k ∈ unguarded_keys → is_Some (ns !! k).
Proof.
  intros Hns Hk. unfold unguarded_keys, conf_items in Hk. cbn in Hk.
  repeat (apply elem_of_cons in Hk as [->|Hk];
          [eapply (Hns (Build_argument _ _ _ _ _));
           unfold declared_arguments; repeat ((by left) || right)|]).
  by apply elem_of_nil in Hk.
Qed.

(** X12: the keys [parse_settings] pops are all keys the form of
    [_parse_arguments] declares, so on a mapping that holds every
    declared argument, as [main] passes it, [parse_settings] never raises
    a KeyError: it returns a configuration or raises MS2RescoreGUIError. *)
Theorem X12_form_values_never_key_error config h ns :
  h !! config = Some ns →
  holds_every_dest ms2pip_models ms2pip_mods_text ns →
  (∀ k, k ∈ relocated_keys →
        ∃ a, a ∈ declared_arguments ms2pip_models ms2pip_mods_text ∧
             arg_dest a = k) ∧
  (∀ k, (parse_settings literal_eval config h).1 ≠ Raise (KeyError k)) ∧
  ((∃ r, (parse_settings literal_eval config h).1 = Ok r) ∨
   (parse_settings literal_eval config h).1
     = Raise (MS2RescoreGUIError maxquant_msg) ∨
   (parse_settings literal_eval config h).1
     = Raise (MS2RescoreGUIError ms2pip_msg)).
Proof.
  intros Hh Hns.
  assert (∀ k, (parse_settings literal_eval config h).1 ≠ Raise (KeyError k))
    as Hnokey.
  { intros k Hrun.
    destruct (parse_settings_store literal_eval config h ns Hh) as (n & _ & Hn).
    rewrite Hrun in Hn. destruct Hn as [Hk Hnone].
    destruct (unguarded_keys_declared ns k Hns) as [v Hv]; [|congruence].
    apply list_elem_of_lookup. by exists n. }
  split; [|split; [done|]].
  - intros k Hk. unfold relocated_keys, unguarded_keys, conf_items in Hk.
    cbn in Hk.
    repeat (apply elem_of_cons in Hk as [->|Hk];
            [eexists (Build_argument _ _ _ _ _); split; [|reflexivity];
             unfold declared_arguments; repeat ((by left) || right)|]).
    by apply elem_of_nil in Hk.
  - destruct (parse_settings literal_eval config h).1 as [r|e] eqn:Hrun;
      [left; by exists r|right].
    destruct (parse_settings_raises literal_eval config h e Hrun)
      as [(k & _ & ->)|[->| ->]]; auto.
    by destruct (Hnokey k).
Qed.

Lemma parse_default_mapping :
  parse_conf_item (PyStr default_modification_mapping)
  = Ok {[ "cm" := "Carbamidomethyl"; "ox" := "Oxidation"; "ac" := "Acetyl";
          "de" := "Deamidated"; "gl" := "Gln->pyro-Glu" ]}.
Proof.
  change (PyStr _) with
    (PyStr (join newline (line_of_pair <$>
       [("cm", "Carbamidomethyl"); ("ox", "Oxidation"); ("ac", "Acetyl");
        ("cm", "Carbamidomethyl"); ("de", "Deamidated");
        ("gl", "Gln->pyro-Glu")]))).
  rewrite parse_conf_item_pairs.
  - simpl. by f_equal.
  - done.
  - by repeat constructor.
Qed.

(** X13: the defaults the form declares are texts [parse_settings]
    accepts.  On an input that holds the declared defaults of the five
    relocated keys, the MaxQuant stage passes: the six default lines of
    modification_mapping give five labels (the line of cm occurs twice),
    and the run returns the configuration below when the default MS²PIP
    text evaluates, and raises the MS²PIP error when it does not. *)
Theorem X13_declared_defaults_parse config h ns :
  h !! config = Some ns →
  (∀ k, k ∈ relocated_keys →
        ns !! k = declared_default ms2pip_models ms2pip_mods_text k) →
  (∀ lit, literal_eval (PyStr ms2pip_mods_text) = Ok lit →
     ∃ r h',
       parse_settings literal_eval config h = (Ok r, h') ∧
       maxquant_to_rescore r
         = {[ "fixed_modifications" := {[ "C" := "Carbamidomethyl" ]};
              "modification_mapping" :=
                {[ "cm" := "Carbamidomethyl"; "ox" := "Oxidation";
                   "ac" := "Acetyl"; "de" := "Deamidated";
                   "gl" := "Gln->pyro-Glu" ]} ]} ∧
       ms2pip r
         = {[ "model" := PyStr "HCD2021";
              "frag_error" := PyFloat float_0_02;
              "modifications" := lit ]}) ∧
  ((∃ e, literal_eval (PyStr ms2pip_mods_text) = Raise e) →
   (parse_settings literal_eval config h).1
   = Raise (MS2RescoreGUIError ms2pip_msg)).
Proof.
  intros Hh Hdefaults.
  assert (ns !! "modification_mapping"
          = Some (PyStr default_modification_mapping)) as H1.
  { rewrite Hdefaults; [done|]. by left. }
  assert (ns !! "fixed_modifications" = Some (PyStr "C Carbamidomethyl")) as H2.
  { rewrite Hdefaults; [done|]. by right; left. }
  assert (ns !! "ms2pip_model" = Some (PyStr "HCD2021")) as H3.
  { rewrite Hdefaults; [done|]. by right; right; left. }
  assert (ns !! "ms2pip_frag_error" = Some (PyFloat float_0_02)) as H4.
  { rewrite Hdefaults; [done|]. by right; right; right; left. }
  assert (ns !! "ms2pip_modifications" = Some (PyStr ms2pip_mods_text)) as H5.
  { rewrite Hdefaults; [done|]. by right; right; right; right; left. }
  rewrite (parse_settings_eq _ _ _ _ Hh). cbn zeta.
  rewrite H1, H2, H3, H4, H5, parse_default_mapping, parse_example_fixed.
  split.
  - intros lit ->. eexists _, _. split; [done|].
    cbn [maxquant_to_rescore ms2pip]. split; apply map_eq; intros k;
      rewrite ?lookup_insert, ?lookup_singleton, ?lookup_empty;
      repeat case_decide; by simplify_eq.
  - by intros [e ->].
Qed.

End FormFacts.

(** ** The further properties on concrete inputs *)

Lemma example_maxquant_ok : maxquant_ok example_config.
Proof.
  apply (maxquant_ok_intro example_config
           (PyStr (join newline ["ox Oxidation"; "ac Acetyl"]))
           {[ "ox" := "Oxidation"; "ac" := "Acetyl" ]}
           (PyStr "C Carbamidomethyl") {[ "C" := "Carbamidomethyl" ]});
    reflexivity.
Qed.

(** X1 on [example_config]. *)
Lemma X1_success_iff_witness :
  ∃ r h', run_on example_config = (Ok r, h').
Proof.
  apply (X1_success_iff Fragment.literal_eval 1%positive
           {[1%positive := example_config]} example_config).
  - reflexivity.
  - split; [exact example_maxquant_ok|]. split.
    + split; eexists; reflexivity.
    + exists (PyStr "[]"), (PyList []). split; reflexivity.
Defined.

(** X2 on the example input without ms2pip_model. *)
Lemma X2_key_error_iff_witness :
  (run_on (delete "ms2pip_model" example_config)).1
  = Raise (KeyError "ms2pip_model").
Proof.
  apply (X2_key_error_iff Fragment.literal_eval 1%positive
           {[1%positive := delete "ms2pip_model" example_config]}
           (delete "ms2pip_model" example_config)).
  - reflexivity.
  - exists 2. split; [reflexivity|]. split; [reflexivity|]. split.
    + intros j k' Hj Hk'. destruct j as [|[|j]]; [| |lia];
        injection Hk' as <-; eexists; reflexivity.
    + intros j f v Hj Hf _ Hv. destruct j as [|[|j]]; [| |lia];
        injection Hf as <-; injection Hv as <-; eexists; reflexivity.
Defined.

(** X3 on the run on [example_config]. *)
Lemma X3_parsed_entries_are_tokens_witness :
  token "ox" ∧ token "Oxidation".
Proof.
  apply (X3_parsed_entries_are_tokens Fragment.literal_eval 1%positive
           {[1%positive := example_config]} example_config
           example_result {[1%positive := general_values]}
           "modification_mapping" {[ "ox" := "Oxidation"; "ac" := "Acetyl" ]});
    reflexivity.
Defined.

(** X4 on an input whose fixed_modifications is "C Carbamido methyl":
    the line holds two spaces, and the run does not succeed. *)
Lemma X4_accepted_texts_witness :
  ¬ ∃ r h', run_on spaced_name_config = (Ok r, h').
Proof.
  intros Hok.
  apply (X4_accepted_texts Fragment.literal_eval 1%positive
           {[1%positive := spaced_name_config]} spaced_name_config
           "fixed_modifications" "C Carbamido methyl") in Hok.
  - destruct Hok as [Hempty|Hlines]; [discriminate|].
    apply Forall_cons in Hlines as [Hline _]. vm_compute in Hline. lia.
  - reflexivity.
  - right. left.
  - reflexivity.
  - apply (rest_ok_intro Fragment.literal_eval spaced_name_config
             "fixed_modifications" "modification_mapping"
             (PyStr "ox Oxidation") {[ "ox" := "Oxidation" ]}).
    + right. left.
    + left.
    + discriminate.
    + reflexivity.
    + reflexivity.
    + split; eexists; reflexivity.
    + exists (PyStr "[]"), (PyList []). split; reflexivity.
Defined.

(** X5 on the example input with fixed_modifications set to None. *)
Lemma X5_non_text_values_witness :
  ∃ r h',
    run_on (<["fixed_modifications" := PyNone]> example_config) = (Ok r, h') ∧
    maxquant_to_rescore r !! "fixed_modifications" = Some ∅.
Proof.
  destruct (X5_non_text_values Fragment.literal_eval 1%positive
              {[1%positive := <["fixed_modifications" := PyNone]> example_config]}
              (<["fixed_modifications" := PyNone]> example_config)
              "fixed_modifications" PyNone) as [Hfalse _].
  - reflexivity.
  - right. left.
  - reflexivity.
  - discriminate.
  - destruct (Hfalse eq_refl) as [_ Htotal]. apply Htotal.
    apply (rest_ok_intro Fragment.literal_eval _
             "fixed_modifications" "modification_mapping"
             (PyStr (join newline ["ox Oxidation"; "ac Acetyl"]))
             {[ "ox" := "Oxidation"; "ac" := "Acetyl" ]}).
    + right. left.
    + left.
    + discriminate.
    + reflexivity.
    + reflexivity.
    + split; eexists; reflexivity.
    + exists (PyStr "[]"), (PyList []). split; reflexivity.
Defined.

(** X6 on an input whose fixed_modifications ends with a line break. *)
Lemma X6_blank_line_rejected_witness :
  (run_on (form_values ("C Carbamidomethyl" +:+ String newline "")
             "ox Oxidation" "[]")).1
  = Raise (MS2RescoreGUIError maxquant_msg).
Proof.
  destruct (X6_blank_line_rejected Fragment.literal_eval 1%positive
              {[1%positive := form_values ("C Carbamidomethyl" +:+ String newline "")
                                "ox Oxidation" "[]"]}
              (form_values ("C Carbamidomethyl" +:+ String newline "")
                 "ox Oxidation" "[]")
              "fixed_modifications" "C Carbamidomethyl" ""
              ("C Carbamidomethyl" +:+ String newline "")) as [_ Hraise].
  - reflexivity.
  - right. left.
  - reflexivity.
  - left. reflexivity.
  - apply Hraise. eexists. reflexivity.
Defined.

(** X7 on [example_config]: the second run raises. *)
Lemma X7_second_run_raises_witness :
  (parse_settings Fragment.literal_eval 1%positive
     (run_on example_config).2).1
  = Raise (KeyError "modification_mapping").
Proof.
  apply (X7_second_run_raises Fragment.literal_eval 1%positive
           {[1%positive := example_config]} example_config).
  - reflexivity.
  - eexists. reflexivity.
Defined.

(** X8 on [example_config] and the same input with another pipeline. *)
Lemma X8_only_relocated_keys_matter_witness :
  match (run_on example_config).1,
        (parse_settings Fragment.literal_eval 2%positive
           {[2%positive := <["pipeline" := PyStr "maxquant"]> example_config]}).1
  with
  | Ok r, Ok r' =>
      maxquant_to_rescore r = maxquant_to_rescore r' ∧ ms2pip r = ms2pip r'
  | Raise e, Raise e' => e = e'
  | _, _ => False
  end.
Proof.
  apply (X8_only_relocated_keys_matter Fragment.literal_eval
           1%positive {[1%positive := example_config]} example_config
           2%positive
           {[2%positive := <["pipeline" := PyStr "maxquant"]> example_config]}
           (<["pipeline" := PyStr "maxquant"]> example_config)).
  - reflexivity.
  - reflexivity.
  - intros k Hk.
    unfold relocated_keys, unguarded_keys, conf_items in Hk. simpl in Hk.
    repeat (apply elem_of_cons in Hk as [->|Hk]; [reflexivity|]).
    by apply elem_of_nil in Hk.
Defined.

(** X9 on an input whose ms2pip_modifications text is "[": the run fails
    after its five pops and leaves the caller's mapping with the general
    settings only. *)
Lemma X9_store_after_failure_witness :
  ∃ n,
    ({[1%positive := general_values]} : gmap loc (gmap string pyval))
      = <[1%positive := foldr delete unbalanced_config (popped n)]>
          {[1%positive := unbalanced_config]} ∧
    (n = 4 ∨ n = 5).
Proof.
  destruct (X9_store_after_failure Fragment.literal_eval 1%positive
              {[1%positive := unbalanced_config]} unbalanced_config
              (MS2RescoreGUIError ms2pip_msg) {[1%positive := general_values]})
    as (n & Hstore & [[Hmsg _]|[_ Hn]]).
  - reflexivity.
  - reflexivity.
  - discriminate Hmsg.
  - exists n. split; [exact Hstore | exact Hn].
Defined.

(** The other stages of a run whose fixed_modifications is the default
    and whose MS²PIP text is "[]". *)
Lemma mapping_rest_ok mapping :
  rest_ok Fragment.literal_eval
    (form_values "C Carbamidomethyl" mapping "[]") "modification_mapping".
Proof.
  apply (rest_ok_intro Fragment.literal_eval _
           "modification_mapping" "fixed_modifications"
           (PyStr "C Carbamidomethyl") {[ "C" := "Carbamidomethyl" ]}).
  - left.
  - right. left.
  - discriminate.
  - reflexivity.
  - reflexivity.
  - split; eexists; reflexivity.
  - exists (PyStr "[]"), (PyList []). split; reflexivity.
Qed.

(** X10 on a modification mapping that lists ac before ox. *)
Lemma X10_line_order_irrelevant_witness :
  ∃ r h',
    run_on (form_values "C Carbamidomethyl"
              (join newline ["ac Acetyl"; "ox Oxidation"]) "[]") = (Ok r, h') ∧
    maxquant_to_rescore r !! "modification_mapping"
    = Some (list_to_map [("ox", "Oxidation"); ("ac", "Acetyl")]).
Proof.
  destruct (X10_line_order_irrelevant Fragment.literal_eval 1%positive
              {[1%positive := form_values "C Carbamidomethyl"
                                (join newline ["ac Acetyl"; "ox Oxidation"]) "[]"]}
              (form_values "C Carbamidomethyl"
                 (join newline ["ac Acetyl"; "ox Oxidation"]) "[]")
              "modification_mapping"
              [("ox", "Oxidation"); ("ac", "Acetyl")]
              [("ac", "Acetyl"); ("ox", "Oxidation")])
    as (_ & _ & Htotal).
  - reflexivity.
  - left.
  - apply perm_swap.
  - apply NoDup_cons. split; [|apply NoDup_singleton].
    rewrite list_elem_of_singleton. discriminate.
  - discriminate.
  - repeat constructor.
  - reflexivity.
  - apply Htotal. apply mapping_rest_ok.
Defined.

(** X11 on the mapping of ox and ac. *)
Lemma X11_listing_round_trip_witness :
  ∃ r h',
    run_on (form_values "C Carbamidomethyl"
              (join newline (line_of_pair <$> map_to_list
                 ({[ "ox" := "Oxidation"; "ac" := "Acetyl" ]}
                    : gmap string string))) "[]") = (Ok r, h') ∧
    maxquant_to_rescore r !! "modification_mapping"
    = Some {[ "ox" := "Oxidation"; "ac" := "Acetyl" ]}.
Proof.
  destruct (X11_listing_round_trip Fragment.literal_eval 1%positive
              {[1%positive := form_values "C Carbamidomethyl"
                  (join newline (line_of_pair <$> map_to_list
                     ({[ "ox" := "Oxidation"; "ac" := "Acetyl" ]}
                        : gmap string string))) "[]"]}
              (form_values "C Carbamidomethyl"
                 (join newline (line_of_pair <$> map_to_list
                    ({[ "ox" := "Oxidation"; "ac" := "Acetyl" ]}
                       : gmap string string))) "[]")
              "modification_mapping"
              {[ "ox" := "Oxidation"; "ac" := "Acetyl" ]})
    as (_ & _ & Htotal).
  - reflexivity.
  - left.
  - apply map_Forall_insert_2; [by repeat constructor|].
    apply map_Forall_singleton. by repeat constructor.
  - reflexivity.
  - apply Htotal. apply mapping_rest_ok.
Defined.

(** X12 on [example_config], which holds the twelve declared keys. *)
Lemma X12_form_values_never_key_error_witness :
  ¬ ∃ k, (run_on example_config).1 = Raise (KeyError k).
Proof.
  intros [k Hk]. revert k Hk.
  destruct (X12_form_values_never_key_error Fragment.literal_eval
              ["HCD2021"] "[]" 1%positive
              {[1%positive := example_config]} example_config)
    as (_ & Hnokey & _).
  - reflexivity.
  - intros a Ha. unfold declared_arguments in Ha.
    repeat (apply elem_of_cons in Ha as [->|Ha]; [eexists; reflexivity|]).
    by apply elem_of_nil in Ha.
  - exact Hnokey.
Defined.

(** X13 on the form left at its defaults, with "[]" as the default
    MS²PIP text. *)
Lemma X13_declared_defaults_parse_witness :
  ∃ r h',
    run_on (form_values "C Carbamidomethyl" default_modification_mapping "[]")
      = (Ok r, h') ∧
    maxquant_to_rescore r
      = {[ "fixed_modifications" := {[ "C" := "Carbamidomethyl" ]};
           "modification_mapping" :=
             {[ "cm" := "Carbamidomethyl"; "ox" := "Oxidation";
                "ac" := "Acetyl"; "de" := "Deamidated";
                "gl" := "Gln->pyro-Glu" ]} ]} ∧
    ms2pip r
      = {[ "model" := PyStr "HCD2021";
           "frag_error" := PyFloat float_0_02;
           "modifications" := PyList [] ]}.
Proof.
  destruct (X13_declared_defaults_parse Fragment.literal_eval
              ["HCD2021"] "[]" 1%positive
              {[1%positive := form_values "C Carbamidomethyl"
                                default_modification_mapping "[]"]}
              (form_values "C Carbamidomethyl" default_modification_mapping "[]"))
    as [Hok _].
  - reflexivity.
  - intros k Hk.
    unfold relocated_keys, unguarded_keys, conf_items in Hk. simpl in Hk.
    repeat (apply elem_of_cons in Hk as [->|Hk]; [reflexivity|]).
    by apply elem_of_nil in Hk.
  - apply (Hok (PyList [])). reflexivity.
Defined.
